(** * ISBN_Maker: the barcode core, embedded and verified

    A shallow embedding of the core of [isbn_barcode_generator]
    ([core/validator.py], [core/encoder.py], [core/addon_encoder.py],
    [core/renderer.py], [core/template_manager.py]) and the proofs of the
    properties its specification states about it.

    Conventions of the embedding:
    - a Python [int] is a [Z]; [len] and list indices are [nat] where the
      source only counts, and are injected into [Z] where the source stores
      them in an [int] field;
    - a Python [str] is the list of its characters; a character is an
      [ascii], read as a code point below 256.  Iterating a [str] and
      indexing it yield one-character [str]s, as in Python;
    - a [raise] is the [Raise] of a small error monad, a method that can
      raise returns a [result]; the text of an f-string is kept as the list
      of its fragments;
    - a Python [float] is an IEEE 754 binary64 value, a [spec_float] of the
      standard library computed with precision 53 and maximal exponent
      1024; an [int] operand is converted as Python converts it, and
      [int(x)] truncates;
    - a dict the code iterates is the list of its items in insertion order;
      [draw] is the list of the rectangles drawn so far. *)

From Stdlib Require Import ZArith Ascii String DecimalString List Bool Lia.
From Stdlib Require Import QArith Qround SpecFloat.
Import ListNotations.

Local Open Scope Z_scope.

(** ** Python primitives *)

Module Py.

Definition str := list ascii.

(** A string literal of the source. *)
Definition lit (s : string) : str := list_ascii_of_string s.

(** One fragment of an f-string: literal text, or a formatted value. *)
Inductive fragment :=
| Text (s : string)
| Int (n : Z)
| Str (s : str).

Definition message := list fragment.

Inductive exn :=
| ValueError (m : message)
| KeyError
| IndexError
| ZeroDivisionError
| OverflowError.

Inductive result (A : Type) :=
| Ok (a : A)
| Raise (e : exn).
Arguments Ok {A} a.
Arguments Raise {A} e.

Definition bind {A B} (r : result A) (k : A -> result B) : result B :=
  match r with
  | Ok a => k a
  | Raise e => Raise e
  end.

(** [s == t] on strings. *)
Fixpoint str_eqb (s t : str) : bool :=
  match s, t with
  | [], [] => true
  | c :: s', d :: t' => Ascii.eqb c d && str_eqb s' t'
  | _, _ => false
  end.

(** [len(s)] as a Python int. *)
Definition len {A} (l : list A) : Z := Z.of_nat (length l).

(** ['0'..'9']. *)
Definition is_ascii_digit (c : ascii) : bool :=
  let n := N_of_ascii c in ((48 <=? n) && (n <=? 57))%N.

(** [c.isdigit()] on code points below 256: the ten ASCII digits and the
    superscripts U+00B2, U+00B3 and U+00B9. *)
Definition char_isdigit (c : ascii) : bool :=
  let n := N_of_ascii c in
  (is_ascii_digit c || (n =? 178) || (n =? 179) || (n =? 185))%N.

(** [s.isdigit()]: at least one character, and all of them digits. *)
Definition isdigit (s : str) : bool :=
  match s with
  | [] => false
  | _ => forallb char_isdigit s
  end.

(** The characters of [s], each a one-character [str]. *)
Definition chars (s : str) : list str := map (fun c => [c]) s.

(** [s[i]] for [0 <= i]. *)
Definition getitem (s : str) (i : nat) : result str :=
  match nth_error s i with
  | Some c => Ok [c]
  | None => Raise IndexError
  end.

(** [s[lo:hi]] for [0 <= lo] and [0 <= hi]. *)
Definition slice {A} (l : list A) (lo hi : nat) : list A :=
  firstn (hi - lo) (skipn lo l).

Fixpoint enumerate_from {A} (i : nat) (l : list A) : list (nat * A) :=
  match l with
  | [] => []
  | x :: xs => (i, x) :: enumerate_from (S i) xs
  end.

Definition enumerate {A} (l : list A) : list (nat * A) := enumerate_from 0 l.

(** [d[k]] on a dict literal, kept as the list of its items. *)
Fixpoint dict_get {K V} (eqb : K -> K -> bool) (d : list (K * V)) (k : K)
  : result V :=
  match d with
  | [] => Raise KeyError
  | (k', v) :: rest => if eqb k' k then Ok v else dict_get eqb rest k
  end.

(** A [for] loop whose body may raise, threading the variables it assigns. *)
Fixpoint for_each {A S} (body : S -> A -> result S) (items : list A) (st : S)
  : result S :=
  match items with
  | [] => Ok st
  | x :: xs => bind (body st x) (for_each body xs)
  end.

(** A list comprehension whose element expression may raise. *)
Fixpoint comprehension {A B} (f : A -> result B) (items : list A)
  : result (list B) :=
  match items with
  | [] => Ok []
  | x :: xs =>
      bind (f x) (fun y => bind (comprehension f xs) (fun ys => Ok (y :: ys)))
  end.

Definition digit_value (c : ascii) : Z := Z.of_N (N_of_ascii c) - 48.

(** [int(s)] where [s] has passed [isdigit]: the decimal value of a
    non-empty string of ASCII digits, [ValueError] on a superscript. *)
Definition int_of_str (s : str) : result Z :=
  match s with
  | [] => Raise (ValueError [Text "invalid literal for int()"])
  | _ =>
      for_each
        (fun acc c =>
           if is_ascii_digit c then Ok (10 * acc + digit_value c)
           else Raise (ValueError [Text "invalid literal for int()"]))
        s 0
  end.

(** [s.startswith(p)]. *)
Fixpoint startswith (s p : str) {struct p} : bool :=
  match p, s with
  | [], _ => true
  | d :: p', c :: s' => Ascii.eqb c d && startswith s' p'
  | _ :: _, [] => false
  end.

(** [str(n)] on an int. *)
Definition str_of_int (n : Z) : str := lit (NilZero.string_of_int (Z.to_int n)).

(** [x in l] on a list of ints. *)
Definition int_in (x : Z) (l : list Z) : bool := existsb (Z.eqb x) l.

(** [c.isspace()] on code points below 256: the control characters 9 to 13
    and 28 to 31, the space, U+0085 and U+00A0. *)
Definition char_isspace (c : ascii) : bool :=
  let n := N_of_ascii c in
  (((9 <=? n) && (n <=? 13)) || ((28 <=? n) && (n <=? 32))
   || (n =? 133) || (n =? 160))%N.

(** [s.lstrip()], [s.rstrip()] and [s.strip()]. *)
Fixpoint lstrip (s : str) : str :=
  match s with
  | [] => []
  | c :: s' => if char_isspace c then lstrip s' else s
  end.

Definition rstrip (s : str) : str := rev (lstrip (rev s)).

Definition strip (s : str) : str := rstrip (lstrip s).

(** [s.replace(old, new)], [old] and [new] one character each. *)
Definition replace (s : str) (old new : ascii) : str :=
  map (fun c => if Ascii.eqb c old then new else c) s.

(** [sep.join(items)]. *)
Fixpoint join (sep : str) (items : list str) : str :=
  match items with
  | [] => []
  | [x] => x
  | x :: rest => x ++ sep ++ join sep rest
  end.

(** [bool(s)] on a string, and on an optional one: [None] and the empty
    string are false. *)
Definition truthy (s : str) : bool :=
  match s with
  | [] => false
  | _ => true
  end.

Definition opt_truthy (s : option str) : bool :=
  match s with
  | Some s => truthy s
  | None => false
  end.

(** An exception of a class that [exn] has no constructor for: kept as a
    [ValueError] whose message starts with the name of the class.  No
    handler of the source tells the two apart. *)
Definition other_exn (class : string) (m : message) : exn :=
  ValueError (Text class :: m).

Definition TypeError (m : message) : exn := other_exn "TypeError" m.
Definition AttributeError (m : message) : exn := other_exn "AttributeError" m.

(** Code that raises and acts on the world outside: a function from the
    world to an outcome and the world it leaves. *)
Definition io (W A : Type) : Type := W -> result A * W.

Definition io_ret {W A} (a : A) : io W A := fun w => (Ok a, w).

Definition io_lift {W A} (r : result A) : io W A := fun w => (r, w).

Definition io_bind {W A B} (m : io W A) (k : A -> io W B) : io W B :=
  fun w =>
    match m w with
    | (Ok a, w') => k a w'
    | (Raise e, w') => (Raise e, w')
    end.

(** [try: m  except Exception as e: handler(e)]. *)
Definition io_try {W A} (m : io W A) (handler : exn -> io W A) : io W A :=
  fun w =>
    match m w with
    | (Ok a, w') => (Ok a, w')
    | (Raise e, w') => handler e w'
    end.

(** A [for] loop of such code. *)
Fixpoint io_for_each {W A S} (body : S -> A -> io W S) (items : list A) (st : S)
  : io W S :=
  match items with
  | [] => io_ret st
  | x :: xs => io_bind (body st x) (io_for_each body xs)
  end.

End Py.

Import Py.

Declare Scope py_scope.
Notation "x <- c ;; k" := (bind c (fun x => k))
  (at level 61, c at next level, right associativity) : py_scope.
Notation "' pat <- c ;; k" := (bind c (fun x => let pat := x in k))
  (at level 61, pat pattern, c at next level, right associativity) : py_scope.
Local Open Scope py_scope.

(** ** core/encoder.py: [BarcodePattern] and the class [EAN13Encoder] *)

Module EAN13Encoder.

Record BarcodePattern := {
  bars : list Z;
  module_count : Z;
  guard_positions : list Z
}.

Definition START_GUARD : str := lit "101".
Definition CENTER_GUARD : str := lit "01010".
Definition END_GUARD : str := lit "101".

Definition L_CODES : list (str * str) :=
  [ (lit "0", lit "0001101"); (lit "1", lit "0011001");
    (lit "2", lit "0010011"); (lit "3", lit "0111101");
    (lit "4", lit "0100011"); (lit "5", lit "0110001");
    (lit "6", lit "0101111"); (lit "7", lit "0111011");
    (lit "8", lit "0110111"); (lit "9", lit "0001011") ].

Definition G_CODES : list (str * str) :=
  [ (lit "0", lit "0100111"); (lit "1", lit "0110011");
    (lit "2", lit "0011011"); (lit "3", lit "0100001");
    (lit "4", lit "0011101"); (lit "5", lit "0111001");
    (lit "6", lit "0000101"); (lit "7", lit "0010001");
    (lit "8", lit "0001001"); (lit "9", lit "0010111") ].

Definition R_CODES : list (str * str) :=
  [ (lit "0", lit "1110010"); (lit "1", lit "1100110");
    (lit "2", lit "1101100"); (lit "3", lit "1000010");
    (lit "4", lit "1011100"); (lit "5", lit "1001110");
    (lit "6", lit "1010000"); (lit "7", lit "1000100");
    (lit "8", lit "1001000"); (lit "9", lit "1110100") ].

Definition PARITY_PATTERNS : list (str * str) :=
  [ (lit "0", lit "LLLLLL"); (lit "1", lit "LLGLGG");
    (lit "2", lit "LLGGLG"); (lit "3", lit "LLGGGL");
    (lit "4", lit "LGLLGG"); (lit "5", lit "LGGLLG");
    (lit "6", lit "LGGGLL"); (lit "7", lit "LGLGLG");
    (lit "8", lit "LGLGGL"); (lit "9", lit "LGGLGL") ].

Definition _get_parity_pattern (first_digit : str) : result str :=
  if negb (len first_digit =? 1) || negb (isdigit first_digit) then
    Raise (ValueError [Text "first_digit必须是单个数字字符"])
  else dict_get str_eqb PARITY_PATTERNS first_digit.

Definition encode (digits : str) : result BarcodePattern :=
  if negb (len digits =? 13) then
    Raise (ValueError [Text "EAN-13需要13位数字，当前为"; Int (len digits); Text "位"])
  else if negb (isdigit digits) then
    Raise (ValueError [Text "输入必须全部为数字"])
  else
    first_digit <- getitem digits 0 ;;
    parity_pattern <- _get_parity_pattern first_digit ;;
    let bars_str : str := lit "" in
    let guard_positions : list Z := [] in
    (* 1. start guard *)
    let start_pos := 0 in
    let bars_str := bars_str ++ START_GUARD in
    let guard_positions :=
      guard_positions ++ [start_pos; start_pos + 1; start_pos + 2] in
    (* 2. left half: digits[1:7], L or G by the parity pattern *)
    bars_str <-
      for_each
        (fun bars_str '(i, digit) =>
           p <- getitem parity_pattern i ;;
           if str_eqb p (lit "L") then
             code <- dict_get str_eqb L_CODES digit ;; Ok (bars_str ++ code)
           else
             code <- dict_get str_eqb G_CODES digit ;; Ok (bars_str ++ code))
        (enumerate (chars (slice digits 1 7))) bars_str ;;
    (* 3. centre guard *)
    let center_start := len bars_str in
    let bars_str := bars_str ++ CENTER_GUARD in
    let guard_positions :=
      guard_positions ++ [center_start; center_start + 1; center_start + 2;
                          center_start + 3; center_start + 4] in
    (* 4. right half: digits[7:13], R codes *)
    bars_str <-
      for_each
        (fun bars_str digit =>
           code <- dict_get str_eqb R_CODES digit ;; Ok (bars_str ++ code))
        (chars (slice digits 7 13)) bars_str ;;
    (* 5. end guard *)
    let end_start := len bars_str in
    let bars_str := bars_str ++ END_GUARD in
    let guard_positions :=
      guard_positions ++ [end_start; end_start + 1; end_start + 2] in
    bars <- comprehension int_of_str (chars bars_str) ;;
    Ok {| bars := bars;
          module_count := len bars;
          guard_positions := guard_positions |}.

End EAN13Encoder.

(** ** core/validator.py: the two result records and the class [ISBNValidator] *)

Module ISBNValidator.

Record ParsedISBN := {
  raw : str;
  digits : str;
  formatted : str;
  parsed_is_valid : bool;
  parsed_error_message : option message
}.

Record ValidationResult := {
  is_valid : bool;
  error_message : option message
}.

(** [re.sub(r'[^0-9]', '', isbn)]. *)
Definition _extract_digits (isbn : str) : str := filter is_ascii_digit isbn.

Definition calculate_check_digit (isbn_12 : str) : result str :=
  if negb (len isbn_12 =? 12) then
    Raise (ValueError [Text "计算校验位需要12位数字，当前为"; Int (len isbn_12); Text "位"])
  else if negb (isdigit isbn_12) then
    Raise (ValueError [Text "ISBN必须全部为数字"])
  else
    total <-
      for_each
        (fun total '(i, digit) =>
           let weight := if (Z.of_nat i mod 2 =? 0) then 1 else 3 in
           d <- int_of_str digit ;;
           Ok (total + d * weight))
        (enumerate (chars isbn_12)) 0 ;;
    let check := (10 - (total mod 10)) mod 10 in
    Ok (str_of_int check).

Definition validate (isbn : str) : result ValidationResult :=
  let digits := _extract_digits isbn in
  if negb (len digits =? 13) then
    Ok {| is_valid := false;
          error_message :=
            Some [Text "ISBN必须是13位数字，当前为"; Int (len digits); Text "位"] |}
  else if negb (startswith digits (lit "978") || startswith digits (lit "979")) then
    Ok {| is_valid := false;
          error_message := Some [Text "ISBN-13必须以978或979开头"] |}
  else
    expected_check <- calculate_check_digit (slice digits 0 12) ;;
    actual_check <- getitem digits 12 ;;
    if negb (str_eqb expected_check actual_check) then
      Ok {| is_valid := false;
            error_message :=
              Some [Text "校验位错误：期望"; Str expected_check;
                    Text "，实际为"; Str actual_check] |}
    else
      Ok {| is_valid := true; error_message := None |}.

Definition _format_isbn (digits : str) : result str :=
  if negb (len digits =? 13) then Ok (lit "")
  else
    d3 <- getitem digits 3 ;;
    d12 <- getitem digits 12 ;;
    Ok (lit "ISBN " ++ slice digits 0 3 ++ lit "-" ++ d3 ++ lit "-"
          ++ slice digits 4 8 ++ lit "-" ++ slice digits 8 12 ++ lit "-" ++ d12).

Definition parse (isbn : str) : result ParsedISBN :=
  let raw := isbn in
  let digits := _extract_digits isbn in
  validation <- validate isbn ;;
  if negb (is_valid validation) then
    Ok {| raw := raw; digits := digits; formatted := lit "";
          parsed_is_valid := false;
          parsed_error_message := error_message validation |}
  else
    formatted <- _format_isbn digits ;;
    Ok {| raw := raw; digits := digits; formatted := formatted;
          parsed_is_valid := true;
          parsed_error_message := None |}.

End ISBNValidator.

(** ** core/addon_encoder.py: the class [AddonEncoder] *)

Module AddonEncoder.

Import EAN13Encoder.

Definition START_GUARD : str := lit "1011".
Definition SEPARATOR : str := lit "01".

Definition L_CODES : list (str * str) :=
  [ (lit "0", lit "0001101"); (lit "1", lit "0011001");
    (lit "2", lit "0010011"); (lit "3", lit "0111101");
    (lit "4", lit "0100011"); (lit "5", lit "0110001");
    (lit "6", lit "0101111"); (lit "7", lit "0111011");
    (lit "8", lit "0110111"); (lit "9", lit "0001011") ].

Definition G_CODES : list (str * str) :=
  [ (lit "0", lit "0100111"); (lit "1", lit "0110011");
    (lit "2", lit "0011011"); (lit "3", lit "0100001");
    (lit "4", lit "0011101"); (lit "5", lit "0111001");
    (lit "6", lit "0000101"); (lit "7", lit "0010001");
    (lit "8", lit "0001001"); (lit "9", lit "0010111") ].

Definition EAN2_PARITY : list (Z * str) :=
  [ (0, lit "LL"); (1, lit "LG"); (2, lit "GL"); (3, lit "GG") ].

Definition EAN5_PARITY : list (Z * str) :=
  [ (0, lit "GGLLL"); (1, lit "GLGLL"); (2, lit "GLLGL"); (3, lit "GLLLG");
    (4, lit "LGGLL"); (5, lit "LLGGL"); (6, lit "LLLGG"); (7, lit "LGLGL");
    (8, lit "LGLLG"); (9, lit "LLGLG") ].

Definition _calculate_checksum_2 (digits : str) : result Z :=
  value <- int_of_str digits ;;
  Ok (value mod 4).

Definition _calculate_checksum_5 (digits : str) : result Z :=
  total <-
    for_each
      (fun total '(i, digit) =>
         d <- int_of_str digit ;;
         if Z.of_nat i mod 2 =? 0 then Ok (total + d * 3)
         else Ok (total + d * 9))
      (enumerate (chars digits)) 0 ;;
  Ok (total mod 10).

Definition encode_2 (digits : str) : result BarcodePattern :=
  if negb (len digits =? 2) then
    Raise (ValueError [Text "EAN-2需要2位数字，当前为"; Int (len digits); Text "位"])
  else if negb (isdigit digits) then
    Raise (ValueError [Text "输入必须全部为数字"])
  else
    checksum <- _calculate_checksum_2 digits ;;
    parity_pattern <- dict_get Z.eqb EAN2_PARITY checksum ;;
    let bars_str : str := lit "" in
    let guard_positions : list Z := [] in
    let bars_str := bars_str ++ START_GUARD in
    let guard_positions := guard_positions ++ [0; 1; 2; 3] in
    bars_str <-
      for_each
        (fun bars_str '(i, digit) =>
           p <- getitem parity_pattern i ;;
           bars_str <-
             (if str_eqb p (lit "L") then
                code <- dict_get str_eqb L_CODES digit ;; Ok (bars_str ++ code)
              else
                code <- dict_get str_eqb G_CODES digit ;; Ok (bars_str ++ code)) ;;
           if Z.of_nat i <? len digits - 1 then Ok (bars_str ++ SEPARATOR)
           else Ok bars_str)
        (enumerate (chars digits)) bars_str ;;
    bars <- comprehension int_of_str (chars bars_str) ;;
    Ok {| bars := bars;
          module_count := len bars;
          guard_positions := guard_positions |}.

Definition encode_5 (digits : str) : result BarcodePattern :=
  if negb (len digits =? 5) then
    Raise (ValueError [Text "EAN-5需要5位数字，当前为"; Int (len digits); Text "位"])
  else if negb (isdigit digits) then
    Raise (ValueError [Text "输入必须全部为数字"])
  else
    checksum <- _calculate_checksum_5 digits ;;
    parity_pattern <- dict_get Z.eqb EAN5_PARITY checksum ;;
    let bars_str : str := lit "" in
    let guard_positions : list Z := [] in
    let bars_str := bars_str ++ START_GUARD in
    let guard_positions := guard_positions ++ [0; 1; 2; 3] in
    bars_str <-
      for_each
        (fun bars_str '(i, digit) =>
           p <- getitem parity_pattern i ;;
           bars_str <-
             (if str_eqb p (lit "L") then
                code <- dict_get str_eqb L_CODES digit ;; Ok (bars_str ++ code)
              else
                code <- dict_get str_eqb G_CODES digit ;; Ok (bars_str ++ code)) ;;
           if Z.of_nat i <? len digits - 1 then Ok (bars_str ++ SEPARATOR)
           else Ok bars_str)
        (enumerate (chars digits)) bars_str ;;
    bars <- comprehension int_of_str (chars bars_str) ;;
    Ok {| bars := bars;
          module_count := len bars;
          guard_positions := guard_positions |}.

End AddonEncoder.

(** ** Python floats: IEEE 754 binary64 *)

Module F64.

Definition prec : Z := 53.
Definition emax : Z := 1024.

Definition float := spec_float.

(** The float literal [n/d] of the source text (as [25.4] is [254/10]):
    the binary64 value nearest to the quotient. *)
Definition decimal (n d : positive) : float :=
  SFdiv prec emax (S754_finite false n 0) (S754_finite false d 0).

(** An int operand of a float operation: rounded to nearest, and
    [OverflowError] when it is too large for a float. *)
Definition of_int (n : Z) : result float :=
  match binary_normalize prec emax n 0 false with
  | S754_infinity _ => Raise OverflowError
  | x => Ok x
  end.

Definition is_zero (x : float) : bool :=
  match x with
  | S754_zero _ => true
  | _ => false
  end.

Definition is_finite (x : float) : bool :=
  match x with
  | S754_zero _ | S754_finite _ _ _ => true
  | _ => false
  end.

(** [x * y], [x - y] and [x < y] on floats. *)
Definition mul (x y : float) : float := SFmul prec emax x y.
Definition sub (x y : float) : float := SFsub prec emax x y.
Definition ltb (x y : float) : bool := SFltb x y.

(** [x / y] on floats. *)
Definition truediv (x y : float) : result float :=
  if is_zero y then Raise ZeroDivisionError else Ok (SFdiv prec emax x y).

(** [n * x] and [x * n] with [n] an int. *)
Definition int_mul_float (n : Z) (x : float) : result float :=
  d <- of_int n ;; Ok (mul d x).
Definition float_mul_int (x : float) (n : Z) : result float :=
  d <- of_int n ;; Ok (mul x d).

(** [n / x] and [n - x] with [n] an int. *)
Definition int_div_float (n : Z) (x : float) : result float :=
  d <- of_int n ;; truediv d x.
Definition int_sub_float (n : Z) (x : float) : result float :=
  d <- of_int n ;; Ok (sub d x).

(** [a / b] on ints: the float nearest to the exact quotient. *)
Definition int_truediv (a b : Z) : result float :=
  if b =? 0 then Raise ZeroDivisionError
  else
    match a with
    | Z0 => Ok (S754_zero (b <? 0))
    | _ =>
        match SFdiv prec emax
                (S754_finite (a <? 0) (Z.to_pos (Z.abs a)) 0)
                (S754_finite (b <? 0) (Z.to_pos (Z.abs b)) 0) with
        | S754_infinity _ => Raise OverflowError
        | q => Ok q
        end
    end.

(** [int(x)]: truncation toward zero. *)
Definition to_int (x : float) : result Z :=
  match x with
  | S754_zero _ => Ok 0
  | S754_infinity _ => Raise OverflowError
  | S754_nan => Raise (ValueError [Text "cannot convert float NaN to integer"])
  | S754_finite s m e => Ok (cond_Zopp s (Z.shiftl (Zpos m) e))
  end.

(** [x < n] with [n] an int that a float holds exactly. *)
Definition lt_int (x : float) (n : Z) : result bool :=
  d <- of_int n ;; Ok (ltb x d).

(** [min(a, b, c)]: the first of the smallest. *)
Definition min3 (a b c : float) : float :=
  let r := a in
  let r := if ltb b r then b else r in
  if ltb c r then c else r.

(** [x + y] on floats. *)
Definition add (x y : float) : float := SFadd prec emax x y.

End F64.

(** ** core/renderer.py: [RenderConfig] and the class [TIFRenderer] *)

Module TIFRenderer.

Import EAN13Encoder.

Inductive ColorMode := BITMAP | GRAYSCALE | RGB | CMYK.

Inductive TextAlignment := LEFT | CENTER | RIGHT.

Record RenderConfig := {
  isbn : ISBNValidator.ParsedISBN;
  barcode_pattern : BarcodePattern;
  addon_pattern : option BarcodePattern;
  addon_digits : option str;
  dpi : Z;
  width_mm : option F64.float;
  height_mm : option F64.float;
  width_px : option Z;
  height_px : option Z;
  lock_aspect_ratio : bool;
  color_mode : ColorMode;
  foreground_color : list Z;
  background_color : list Z;
  font_family : str;
  font_size : Z;
  letter_spacing : F64.float;
  isbn_text_offset_y : Z;
  digits_offset_y : Z;
  text_alignment : TextAlignment;
  show_quiet_zone_indicator : bool
}.

Definition STANDARD_MODULE_WIDTH_MM : F64.float := F64.decimal 33 100.
Definition STANDARD_BARCODE_HEIGHT_MM : F64.float := F64.decimal 2285 100.
Definition STANDARD_TOTAL_WIDTH_MM : F64.float := F64.decimal 3729 100.
Definition STANDARD_TOTAL_HEIGHT_MM : F64.float := F64.decimal 2593 100.

Definition EAN13_MODULES : Z := 95.
Definition LEFT_QUIET_ZONE_MODULES : Z := 11.
Definition RIGHT_QUIET_ZONE_MODULES : Z := 7.
Definition ADDON_GAP_MODULES : Z := 7.

Definition _mm_to_px (mm : F64.float) (dpi : Z) : result Z :=
  p <- F64.float_mul_int mm dpi ;;
  q <- F64.truediv p (F64.decimal 254 10) ;;
  F64.to_int q.

Definition _calculate_image_size (config : RenderConfig) : result (Z * Z) :=
  default_width_px <- _mm_to_px STANDARD_TOTAL_WIDTH_MM (dpi config) ;;
  default_height_px <- _mm_to_px STANDARD_TOTAL_HEIGHT_MM (dpi config) ;;
  default_width_px <-
    match addon_pattern config with
    | Some addon =>
        let addon_width_modules := module_count addon + ADDON_GAP_MODULES + 5 in
        addon_width_mm <-
          F64.int_mul_float addon_width_modules STANDARD_MODULE_WIDTH_MM ;;
        addon_width_px <- _mm_to_px addon_width_mm (dpi config) ;;
        Ok (default_width_px + addon_width_px)
    | None => Ok default_width_px
    end ;;
  (* the pixel value first *)
  width_px <-
    match width_px config with
    | Some v => Ok (Some v)
    | None =>
        match width_mm config with
        | Some mm => v <- _mm_to_px mm (dpi config) ;; Ok (Some v)
        | None => Ok None
        end
    end ;;
  height_px <-
    match height_px config with
    | Some v => Ok (Some v)
    | None =>
        match height_mm config with
        | Some mm => v <- _mm_to_px mm (dpi config) ;; Ok (Some v)
        | None => Ok None
        end
    end ;;
  if lock_aspect_ratio config then
    aspect_ratio <- F64.int_truediv default_width_px default_height_px ;;
    match width_px, height_px with
    | Some w, None =>
        q <- F64.int_div_float w aspect_ratio ;;
        h <- F64.to_int q ;;
        Ok (w, h)
    | None, Some h =>
        p <- F64.int_mul_float h aspect_ratio ;;
        w <- F64.to_int p ;;
        Ok (w, h)
    | None, None => Ok (default_width_px, default_height_px)
    | Some w, Some h => Ok (w, h)
    end
  else
    let w := match width_px with Some w => w | None => default_width_px end in
    let h := match height_px with Some h => h | None => default_height_px end in
    Ok (w, h).

Definition _calculate_module_width (config : RenderConfig) (image_width_px : Z)
  : result F64.float :=
  let total_modules :=
    LEFT_QUIET_ZONE_MODULES + EAN13_MODULES + RIGHT_QUIET_ZONE_MODULES in
  let total_modules :=
    match addon_pattern config with
    | Some addon => total_modules + (ADDON_GAP_MODULES + module_count addon + 5)
    | None => total_modules
    end in
  F64.int_truediv image_width_px total_modules.

(** The dict that the two area functions return. *)
Record Area := {
  area_x : Z;
  area_y : Z;
  area_width : Z;
  area_height : Z;
  area_module_width : F64.float
}.

Definition _calculate_barcode_area (config : RenderConfig)
           (width_px height_px : Z) (module_width_px : F64.float)
  : result Area :=
  let isbn_text_height := font_size config + isbn_text_offset_y config in
  let digits_height := font_size config + digits_offset_y config in
  q <- F64.int_mul_float LEFT_QUIET_ZONE_MODULES module_width_px ;;
  barcode_x <- F64.to_int q ;;
  barcode_x <-
    match addon_pattern config with
    | None =>
        offset_mm_px <- _mm_to_px (F64.decimal 5 10) (dpi config) ;;
        Ok (barcode_x - offset_mm_px)
    | Some _ => Ok barcode_x
    end ;;
  w <- F64.int_mul_float EAN13_MODULES module_width_px ;;
  barcode_width <- F64.to_int w ;;
  let barcode_y := isbn_text_height + 5 in
  let barcode_height := height_px - barcode_y - digits_height - 5 in
  Ok {| area_x := barcode_x;
        area_y := barcode_y;
        area_width := barcode_width;
        area_height := barcode_height;
        area_module_width := module_width_px |}.

(** What [_convert_color] returns: an int for the two single-channel
    modes, a tuple for RGB and CMYK. *)
Inductive color_value :=
| Level (v : Z)
| Channels (vs : list Z).

Definition color_at (color : list Z) (i : nat) : result Z :=
  match nth_error color i with
  | Some v => Ok v
  | None => Raise IndexError
  end.

Definition _convert_color (color : list Z) (color_mode : ColorMode)
  : result color_value :=
  match color_mode with
  | BITMAP =>
      if 3 <=? len color then
        c0 <- color_at color 0 ;; c1 <- color_at color 1 ;; c2 <- color_at color 2 ;;
        brightness <- F64.int_truediv (c0 + c1 + c2) 3 ;;
        dark <- F64.lt_int brightness 128 ;;
        Ok (Level (if dark then 0 else 1))
      else
        brightness <- color_at color 0 ;;
        Ok (Level (if brightness <? 128 then 0 else 1))
  | GRAYSCALE =>
      if 3 <=? len color then
        c0 <- color_at color 0 ;; c1 <- color_at color 1 ;; c2 <- color_at color 2 ;;
        mean <- F64.int_truediv (c0 + c1 + c2) 3 ;;
        v <- F64.to_int mean ;;
        Ok (Level v)
      else
        c0 <- color_at color 0 ;; Ok (Level c0)
  | RGB =>
      if 3 <=? len color then
        c0 <- color_at color 0 ;; c1 <- color_at color 1 ;; c2 <- color_at color 2 ;;
        Ok (Channels [c0; c1; c2])
      else
        c0 <- color_at color 0 ;; Ok (Channels [c0; c0; c0])
  | CMYK =>
      ' (r, g, b) <-
        (if 3 <=? len color then
           c0 <- color_at color 0 ;; c1 <- color_at color 1 ;;
           c2 <- color_at color 2 ;; Ok (c0, c1, c2)
         else
           c0 <- color_at color 0 ;; Ok (c0, c0, c0)) ;;
      if (r =? 0) && (g =? 0) && (b =? 0) then Ok (Channels [0; 0; 0; 255])
      else
        r' <- F64.int_truediv r 255 ;; c <- F64.int_sub_float 1 r' ;;
        g' <- F64.int_truediv g 255 ;; m <- F64.int_sub_float 1 g' ;;
        b' <- F64.int_truediv b 255 ;; y <- F64.int_sub_float 1 b' ;;
        let k := F64.min3 c m y in
        below <- F64.lt_int k 1 ;;
        if below then
          d <- F64.int_sub_float 1 k ;; c <- F64.truediv (F64.sub c k) d ;;
          d <- F64.int_sub_float 1 k ;; m <- F64.truediv (F64.sub m k) d ;;
          d <- F64.int_sub_float 1 k ;; y <- F64.truediv (F64.sub y k) d ;;
          c255 <- F64.float_mul_int c 255 ;; ci <- F64.to_int c255 ;;
          m255 <- F64.float_mul_int m 255 ;; mi <- F64.to_int m255 ;;
          y255 <- F64.float_mul_int y 255 ;; yi <- F64.to_int y255 ;;
          k255 <- F64.float_mul_int k 255 ;; ki <- F64.to_int k255 ;;
          Ok (Channels [ci; mi; yi; ki])
        else
          (* c = m = y = 0, and int(0 * 255) is 0 *)
          k255 <- F64.float_mul_int k 255 ;; ki <- F64.to_int k255 ;;
          Ok (Channels [0; 0; 0; ki])
  end.

(** A call of [draw.rectangle([x0, y0, x1, y1], fill=fill)]. *)
Record Rectangle := {
  x0 : Z; y0 : Z; x1 : Z; y1 : Z;
  fill : color_value
}.

(** [draw] is the list of the rectangles drawn so far. *)
Definition _draw_barcode (draw : list Rectangle) (pattern : BarcodePattern)
           (config : RenderConfig) (area : Area) (module_width_px : F64.float)
  : result (list Rectangle) :=
  fg_color <- _convert_color (foreground_color config) (color_mode config) ;;
  let x := area_x area in
  let y := area_y area in
  let height := area_height area in
  h <- F64.int_mul_float height (F64.decimal 1 10) ;;
  guard_extension <- F64.to_int h ;;
  for_each
    (fun draw '(i, bar) =>
       let bar_width := module_width_px in
       p <- F64.int_mul_float (Z.of_nat i) module_width_px ;;
       t <- F64.to_int p ;;
       let bar_x := x + t in
       if bar =? 1 then
         let bar_height :=
           if int_in (Z.of_nat i) (guard_positions pattern)
           then height + guard_extension else height in
         w <- F64.to_int bar_width ;;
         Ok (draw ++ [{| x0 := bar_x; y0 := y;
                         x1 := bar_x + w; y1 := y + bar_height;
                         fill := fg_color |}])
       else Ok draw)
    (enumerate (bars pattern)) draw.

Definition _calculate_addon_area (main_area : Area) (config : RenderConfig)
           (module_width_px : F64.float) : result Area :=
  q <- F64.int_mul_float (RIGHT_QUIET_ZONE_MODULES + ADDON_GAP_MODULES)
         module_width_px ;;
  gap <- F64.to_int q ;;
  let addon_x := area_x main_area + area_width main_area + gap in
  h <- F64.int_mul_float (area_height main_area) (F64.decimal 85 100) ;;
  addon_height <- F64.to_int h ;;
  let addon_y := area_y main_area + area_height main_area - addon_height in
  match addon_pattern config with
  | None =>
      Raise (AttributeError [Text "'NoneType' object has no attribute 'module_count'"])
  | Some addon =>
      w <- F64.int_mul_float (module_count addon) module_width_px ;;
      addon_width <- F64.to_int w ;;
      Ok {| area_x := addon_x;
            area_y := addon_y;
            area_width := addon_width;
            area_height := addon_height;
            area_module_width := module_width_px |}
  end.

Definition _draw_addon (draw : list Rectangle) (pattern : BarcodePattern)
           (config : RenderConfig) (area : Area) (module_width_px : F64.float)
  : result (list Rectangle) :=
  fg_color <- _convert_color (foreground_color config) (color_mode config) ;;
  let x := area_x area in
  let y := area_y area in
  let height := area_height area in
  for_each
    (fun draw '(i, bar) =>
       let bar_width := module_width_px in
       p <- F64.int_mul_float (Z.of_nat i) module_width_px ;;
       t <- F64.to_int p ;;
       let bar_x := x + t in
       if bar =? 1 then
         w <- F64.to_int bar_width ;;
         Ok (draw ++ [{| x0 := bar_x; y0 := y;
                         x1 := bar_x + w; y1 := y + height;
                         fill := fg_color |}])
       else Ok draw)
    (enumerate (bars pattern)) draw.

Definition get_default_size_mm (has_addon : bool) (addon_modules : Z)
  : result (F64.float * F64.float) :=
  let width_mm := STANDARD_TOTAL_WIDTH_MM in
  width_mm <-
    (if has_addon then
       addon_width_mm <-
         F64.int_mul_float (addon_modules + ADDON_GAP_MODULES)
           STANDARD_MODULE_WIDTH_MM ;;
       Ok (F64.add width_mm addon_width_mm)
     else Ok width_mm) ;;
  Ok (width_mm, STANDARD_TOTAL_HEIGHT_MM).

Definition get_default_size_px (dpi : Z) (has_addon : bool) (addon_modules : Z)
  : result (Z * Z) :=
  ' (width_mm, height_mm) <- get_default_size_mm has_addon addon_modules ;;
  w <- _mm_to_px width_mm dpi ;;
  h <- _mm_to_px height_mm dpi ;;
  Ok (w, h).

(** [TIFConfig]; its field [dpi] is [tif_dpi] here, [dpi] being the field
    of [RenderConfig]. *)
Record TIFConfig := {
  tif_dpi : Z;
  compression : str
}.

End TIFRenderer.

(** ** core/template_manager.py: the class [TemplateManager] *)

Module TemplateManager.

(** The values a configuration dict holds.  [VObject] is any object with
    attributes, an [Enum] member being one with [name] and [value]. *)
#[warnings="-register-all"] Inductive pyval :=
| VNone
| VBool (b : bool)
| VInt (n : Z)
| VFloat (x : F64.float)
| VStr (s : str)
| VTuple (items : list pyval)
| VList (items : list pyval)
| VObject (attrs : list (str * pyval)).

(** A dict: its items in insertion order, the keys distinct. *)
Definition dict := list (str * pyval).

(** [d[key] = value]: in place when the key is there, appended otherwise. *)
Fixpoint dict_set (d : dict) (key : str) (value : pyval) : dict :=
  match d with
  | [] => [(key, value)]
  | (k, v) :: rest =>
      if str_eqb k key then (k, value) :: rest
      else (k, v) :: dict_set rest key value
  end.

Fixpoint attr_lookup (attrs : list (str * pyval)) (name : str) : option pyval :=
  match attrs with
  | [] => None
  | (k, v) :: rest => if str_eqb k name then Some v else attr_lookup rest name
  end.

(** [getattr(value, name)] when [hasattr(value, name)], [None] otherwise.
    The built-in values hold neither a [value] nor a [name]. *)
Definition getattr (value : pyval) (name : str) : option pyval :=
  match value with
  | VObject attrs => attr_lookup attrs name
  | _ => None
  end.

Definition _serialize_config (config : dict) : dict :=
  fold_left
    (fun result '(key, value) =>
       match value with
       | VTuple items => dict_set result key (VList items)
       | _ =>
           match getattr value (lit "value") with
           | Some v => dict_set result key v
           | None =>
               match getattr value (lit "name") with
               | Some n => dict_set result key n
               | None => dict_set result key value
               end
           end
       end)
    config [].

Definition is_color_key (key : str) : bool :=
  str_eqb key (lit "foreground_color") || str_eqb key (lit "background_color").

Definition _deserialize_config (config : dict) : dict :=
  fold_left
    (fun result '(key, value) =>
       match value with
       | VList items =>
           if is_color_key key then dict_set result key (VTuple items)
           else dict_set result key value
       | _ => dict_set result key value
       end)
    config [].

Definition DEFAULT_CONFIG : dict :=
  [ (lit "dpi", VInt 1200);
    (lit "width_mm", VFloat (F64.decimal 325 10));
    (lit "height_mm", VFloat (F64.decimal 226 10));
    (lit "width_px", VNone);
    (lit "height_px", VNone);
    (lit "lock_aspect_ratio", VBool true);
    (lit "color_mode", VStr (lit "BITMAP"));
    (lit "foreground_color", VList [VInt 0; VInt 0; VInt 0]);
    (lit "background_color", VList [VInt 255; VInt 255; VInt 255]);
    (lit "font_family", VStr (lit "Arial"));
    (lit "font_size", VInt 125);
    (lit "letter_spacing", VFloat (F64.decimal 4 1));
    (lit "isbn_text_offset_y", VInt 4);
    (lit "digits_offset_y", VInt 3);
    (lit "text_alignment", VStr (lit "center"));
    (lit "show_quiet_zone_indicator", VBool true) ].

Definition ADDON_2_CONFIG : dict :=
  [ (lit "dpi", VInt 1200);
    (lit "width_mm", VFloat (F64.decimal 325 10));
    (lit "height_mm", VFloat (F64.decimal 226 10));
    (lit "width_px", VNone);
    (lit "height_px", VNone);
    (lit "lock_aspect_ratio", VBool true);
    (lit "color_mode", VStr (lit "BITMAP"));
    (lit "foreground_color", VList [VInt 0; VInt 0; VInt 0]);
    (lit "background_color", VList [VInt 255; VInt 255; VInt 255]);
    (lit "font_family", VStr (lit "Arial"));
    (lit "font_size", VInt 98);
    (lit "letter_spacing", VFloat (F64.decimal 4 1));
    (lit "isbn_text_offset_y", VInt 4);
    (lit "digits_offset_y", VInt 3);
    (lit "text_alignment", VStr (lit "center"));
    (lit "show_quiet_zone_indicator", VBool true) ].

(** [unsafe_chars], the characters [<>:], the double quote and [/\|?*]. *)
Definition unsafe_chars : str := lit "<>:" ++ [ascii_of_nat 34] ++ lit "/\|?*".

Definition _sanitize_filename (name : str) : str :=
  let result := name in
  let result :=
    fold_left (fun result char => replace result char "_"%char) unsafe_chars result in
  strip result.

(** [DEFAULT_CONFIG.copy()] and [ADDON_2_CONFIG.copy()]. *)
Definition get_default_template : dict := DEFAULT_CONFIG.

Definition get_addon_2_template : dict := ADDON_2_CONFIG.

End TemplateManager.

(** ** core/batch_processor.py: [parse_isbn_input] and the class [BatchProcessor] *)

Module BatchProcessor.

Import EAN13Encoder TIFRenderer TemplateManager.

Record ParsedInput := {
  isbn_digits : option str;
  addon_digits : option str;
  is_valid : bool;
  error_message : option message
}.

Definition parse_isbn_input (raw_input : str) : ParsedInput :=
  if negb (truthy raw_input) then
    {| isbn_digits := None; addon_digits := None; is_valid := false;
       error_message := Some [Text "输入为空"] |}
  else
    let digits := join (lit "") (filter isdigit (chars raw_input)) in
    if negb (truthy digits) then
      {| isbn_digits := None; addon_digits := None; is_valid := false;
         error_message := Some [Text "输入中没有数字"] |}
    else
      let length := len digits in
      if length =? 13 then
        {| isbn_digits := Some digits; addon_digits := None; is_valid := true;
           error_message := None |}
      else if length =? 15 then
        {| isbn_digits := Some (firstn 13 digits);
           addon_digits := Some (skipn 13 digits);
           is_valid := true; error_message := None |}
      else if length =? 18 then
        {| isbn_digits := Some (firstn 13 digits);
           addon_digits := Some (skipn 13 digits);
           is_valid := true; error_message := None |}
      else
        {| isbn_digits := None; addon_digits := None; is_valid := false;
           error_message :=
             Some [Text "无效的输入长度："; Int length; Text "位（应为13、15或18位）"] |}.

(** The text of a [BatchError]: a message of the source, or [str(e)] of
    the exception [e] that [process_list] caught. *)
Inductive error_text :=
| Message (m : message)
| StrOf (e : exn).

(** [BatchError]; its field [error_message] is [batch_error_message]
    here, [error_message] being the field of [ParsedInput]. *)
Record BatchError := {
  isbn : str;
  batch_error_message : error_text
}.

Record BatchResult := {
  total : Z;
  success : Z;
  failed : Z;
  errors : list BatchError
}.

(** [m or "无效的ISBN"]. *)
Definition message_or_invalid (m : option message) : message :=
  match m with
  | Some ((_ :: _) as m) => m
  | _ => [Text "无效的ISBN"]
  end.

(** [template.get(key, default)] where the value initialises a field of
    [RenderConfig]: the value under [key], [default] when the key is
    missing.  The fields being typed here, a value that is not of the type
    of its field is left for [default]; the templates of the source hold
    none. *)
Definition get_int (template : dict) (key : string) (default : Z) : Z :=
  match attr_lookup template (lit key) with
  | Some (VInt n) => n
  | _ => default
  end.

Definition get_float (template : dict) (key : string) (default : F64.float)
  : F64.float :=
  match attr_lookup template (lit key) with
  | Some (VFloat x) => x
  | _ => default
  end.

Definition get_bool (template : dict) (key : string) (default : bool) : bool :=
  match attr_lookup template (lit key) with
  | Some (VBool b) => b
  | _ => default
  end.

Definition get_str (template : dict) (key : string) (default : str) : str :=
  match attr_lookup template (lit key) with
  | Some (VStr s) => s
  | _ => default
  end.

Definition get_optional_int (template : dict) (key : string) (default : option Z)
  : option Z :=
  match attr_lookup template (lit key) with
  | Some (VInt n) => Some n
  | Some VNone => None
  | _ => default
  end.

Definition get_optional_float (template : dict) (key : string)
           (default : option F64.float) : option F64.float :=
  match attr_lookup template (lit key) with
  | Some (VFloat x) => Some x
  | Some VNone => None
  | _ => default
  end.

Section Processor.

(** What the processor reaches outside the core: the world it acts on;
    [render], which builds an image with the imaging library and the fonts
    of the machine, and [save_tif], which writes it; [os.path.join]; the
    directory made by [_ensure_output_dir]; and the [template_manager]
    given to the constructor, present or not. *)
Variables World Image : Type.
Variable render : RenderConfig -> io World Image.
Variable save_tif : Image -> str -> TIFConfig -> io World unit.
Variable path_join : str -> str -> str.
Variable _ensure_output_dir : str -> io World unit.
Variable template_manager : option unit.

Definition _process_single_isbn (isbn_raw output_dir : str) (config : RenderConfig)
  : io World (option BatchError) :=
  let isbn_clean := strip isbn_raw in
  if negb (truthy isbn_clean) then io_ret None
  else
    let parsed_input := parse_isbn_input isbn_clean in
    if negb (is_valid parsed_input) then
      io_ret (Some {| isbn := isbn_raw;
                      batch_error_message :=
                        Message (message_or_invalid (error_message parsed_input)) |})
    else
      let addon_digits :=
        if opt_truthy (addon_digits parsed_input) then addon_digits parsed_input
        else TIFRenderer.addon_digits config in
      io_bind
        (io_lift
           match isbn_digits parsed_input with
           | Some isbn_digits => ISBNValidator.parse isbn_digits
           | None => Raise (TypeError [Text "expected string or bytes-like object"])
           end)
        (fun parsed =>
      if negb (ISBNValidator.parsed_is_valid parsed) then
        io_ret (Some {| isbn := isbn_raw;
                        batch_error_message :=
                          Message (message_or_invalid
                                     (ISBNValidator.parsed_error_message parsed)) |})
      else
        io_bind (io_lift (encode (ISBNValidator.digits parsed))) (fun barcode_pattern =>
        io_bind
          (io_lift
             match addon_digits with
             | Some ((_ :: _) as digits) =>
                 if len digits =? 2 then
                   p <- AddonEncoder.encode_2 digits ;; Ok (Some p)
                 else if len digits =? 5 then
                   p <- AddonEncoder.encode_5 digits ;; Ok (Some p)
                 else Ok None
             | _ => Ok None
             end)
          (fun addon_pattern =>
        let render_config :=
          match opt_truthy addon_digits, template_manager with
          | true, Some _ =>
              let addon_template := get_addon_2_template in
              {| TIFRenderer.isbn := parsed;
                 barcode_pattern := barcode_pattern;
                 addon_pattern := addon_pattern;
                 TIFRenderer.addon_digits := addon_digits;
                 dpi := get_int addon_template "dpi" (dpi config);
                 width_mm := get_optional_float addon_template "width_mm" (width_mm config);
                 height_mm :=
                   get_optional_float addon_template "height_mm" (height_mm config);
                 width_px := get_optional_int addon_template "width_px" (width_px config);
                 height_px := get_optional_int addon_template "height_px" (height_px config);
                 lock_aspect_ratio :=
                   get_bool addon_template "lock_aspect_ratio" (lock_aspect_ratio config);
                 color_mode := color_mode config;
                 foreground_color := foreground_color config;
                 background_color := background_color config;
                 font_family := get_str addon_template "font_family" (font_family config);
                 font_size := get_int addon_template "font_size" (font_size config);
                 letter_spacing :=
                   get_float addon_template "letter_spacing" (letter_spacing config);
                 isbn_text_offset_y :=
                   get_int addon_template "isbn_text_offset_y" (isbn_text_offset_y config);
                 digits_offset_y :=
                   get_int addon_template "digits_offset_y" (digits_offset_y config);
                 text_alignment := text_alignment config;
                 show_quiet_zone_indicator := true |}
          | _, _ =>
              {| TIFRenderer.isbn := parsed;
                 barcode_pattern := barcode_pattern;
                 addon_pattern := addon_pattern;
                 TIFRenderer.addon_digits := addon_digits;
                 dpi := dpi config;
                 width_mm := width_mm config;
                 height_mm := height_mm config;
                 width_px := width_px config;
                 height_px := height_px config;
                 lock_aspect_ratio := lock_aspect_ratio config;
                 color_mode := color_mode config;
                 foreground_color := foreground_color config;
                 background_color := background_color config;
                 font_family := font_family config;
                 font_size := font_size config;
                 letter_spacing := letter_spacing config;
                 isbn_text_offset_y := isbn_text_offset_y config;
                 digits_offset_y := digits_offset_y config;
                 text_alignment := text_alignment config;
                 show_quiet_zone_indicator := true |}
          end in
        io_bind (render render_config) (fun image =>
        let output_filename := ISBNValidator.digits parsed ++ lit ".tif" in
        let output_path := path_join output_dir output_filename in
        let tif_config :=
          {| tif_dpi := dpi config; compression := lit "tiff_lzw" |} in
        io_bind (save_tif image output_path tif_config) (fun _ =>
        io_ret None))))).

Definition process_list (isbn_list : list str) (output_dir : str)
           (config : RenderConfig)
           (progress_callback : option (Z -> Z -> str -> io World unit))
  : io World BatchResult :=
  io_bind (_ensure_output_dir output_dir) (fun _ =>
  let total := len isbn_list in
  let success := 0 in
  let failed := 0 in
  let errors : list BatchError := [] in
  io_bind
    (io_for_each
       (fun '(success, failed, errors) '(index, isbn_raw) =>
          io_bind
            match progress_callback with
            | Some callback => callback (Z.of_nat index) total isbn_raw
            | None => io_ret tt
            end
            (fun _ =>
          io_try
            (io_bind (_process_single_isbn isbn_raw output_dir config) (fun error =>
             match error with
             | Some error => io_ret (success, failed + 1, errors ++ [error])
             | None => io_ret (success + 1, failed, errors)
             end))
            (fun e =>
               io_ret (success, failed + 1,
                       errors ++ [{| isbn := isbn_raw;
                                     batch_error_message := StrOf e |}]))))
       (enumerate isbn_list) (success, failed, errors))
    (fun '(success, failed, errors) =>
  io_ret {| total := total; success := success; failed := failed;
            errors := errors |})).

End Processor.

End BatchProcessor.

(** ** Reference definitions

    What the properties talk about and the source has no name for: the
    module string of a symbol written as the concatenation the specification
    describes, the decoders of its halves, the checksums as the
    specification words them, the value of a float as a rational number,
    the parts of a method that a property speaks of, and the sample inputs
    on which the properties are exercised. *)

Module Reference.

Import EAN13Encoder.

(** The module ['0'] or ['1'] as the int stored in [bars]. *)
Definition bit_value (c : ascii) : Z := if Ascii.eqb c "1" then 1 else 0.

Definition is_bit (c : ascii) : bool := Ascii.eqb c "0" || Ascii.eqb c "1".

(** The entry of a digit table for the digit character [d]. *)
Definition code_in (table : list (str * str)) (d : ascii) : str :=
  match dict_get str_eqb table [d] with
  | Ok code => code
  | Raise _ => []
  end.

(** The table a parity character selects. *)
Definition left_table (lcodes gcodes : list (str * str)) (p : ascii)
  : list (str * str) :=
  if Ascii.eqb p "L" then lcodes else gcodes.

(** The codes of [ds], each from the table its parity character selects. *)
Fixpoint left_codes (lcodes gcodes : list (str * str)) (parity ds : str) : str :=
  match parity, ds with
  | p :: parity', d :: ds' =>
      code_in (left_table lcodes gcodes p) d
        ++ left_codes lcodes gcodes parity' ds'
  | _, _ => []
  end.

Definition right_codes (ds : str) : str := flat_map (code_in R_CODES) ds.

(** The parity pattern the first digit selects. *)
Definition parity_of (d : ascii) : str := code_in PARITY_PATTERNS d.

(** The 95 modules of the main symbol, as section 4.2 lays them out. *)
Definition ean13_modules (digits : str) : str :=
  START_GUARD
    ++ left_codes L_CODES G_CODES (parity_of (nth 0 digits "0"%char)) (slice digits 1 7)
    ++ CENTER_GUARD
    ++ right_codes (slice digits 7 13)
    ++ END_GUARD.

Fixpoint modules_eqb (a b : list Z) : bool :=
  match a, b with
  | [], [] => true
  | x :: a', y :: b' => (x =? y) && modules_eqb a' b'
  | _, _ => false
  end.

(** Decoding seven modules: the digit whose code in [table] they are. *)
Fixpoint decode_group (table : list (str * str)) (modules : list Z) : option str :=
  match table with
  | [] => None
  | (digit, code) :: rest =>
      if modules_eqb (map bit_value code) modules then Some digit
      else decode_group rest modules
  end.

(** A table that has, for every digit, a code of seven modules which
    decodes back to the digit. *)
Definition digit_table (table : list (str * str)) : Prop :=
  forall d, is_ascii_digit d = true ->
    dict_get str_eqb table [d] = Ok (code_in table d)
    /\ length (code_in table d) = 7%nat
    /\ forallb is_bit (code_in table d) = true
    /\ decode_group table (map bit_value (code_in table d)) = Some [d].

(** The sum of the digits of [ds] weighted alternately, the first by [w]
    and the next by the other of 1 and 3. *)
Fixpoint weighted_sum (w : Z) (ds : str) : Z :=
  match ds with
  | [] => 0
  | d :: ds' => digit_value d * w + weighted_sum (4 - w) ds'
  end.

(** The check digit of section 4.1. *)
Definition check_digit (prefix12 : str) : Z :=
  (10 - (weighted_sum 1 prefix12 mod 10)) mod 10.

(** The outcome of a validation that found the check digit wrong. *)
Definition checksum_mismatch (expected actual : str) : ISBNValidator.ValidationResult :=
  {| ISBNValidator.is_valid := false;
     ISBNValidator.error_message :=
       Some [Text "校验位错误：期望"; Str expected; Text "，实际为"; Str actual] |}.

Definition accepted : ISBNValidator.ValidationResult :=
  {| ISBNValidator.is_valid := true; ISBNValidator.error_message := None |}.

(** The outcome of a validation that counted [n] digits, [n] not 13. *)
Definition invalid_length (n : Z) : ISBNValidator.ValidationResult :=
  {| ISBNValidator.is_valid := false;
     ISBNValidator.error_message :=
       Some [Text "ISBN必须是13位数字，当前为"; Int n; Text "位"] |}.

(** [parsed] with its [raw] field replaced. *)
Definition with_raw (raw : str) (parsed : ISBNValidator.ParsedISBN) : ISBNValidator.ParsedISBN :=
  {| ISBNValidator.raw := raw;
     ISBNValidator.digits := ISBNValidator.digits parsed;
     ISBNValidator.formatted := ISBNValidator.formatted parsed;
     ISBNValidator.parsed_is_valid := ISBNValidator.parsed_is_valid parsed;
     ISBNValidator.parsed_error_message := ISBNValidator.parsed_error_message parsed |}.

(** The value of the digit at index [i] of [ds]. *)
Definition digit_at (ds : str) (i : nat) : Z := digit_value (nth i ds "0"%char).

(** The checksums of section 4.1 for the add-ons: the two-digit number
    modulo 4; the digits at the odd positions, counted from 1, times 3 plus
    those at the even positions times 9, modulo 10. *)
Definition addon2_checksum (ds : str) : Z := (10 * digit_at ds 0 + digit_at ds 1) mod 4.

Definition addon5_checksum (ds : str) : Z :=
  (3 * (digit_at ds 0 + digit_at ds 2 + digit_at ds 4)
   + 9 * (digit_at ds 1 + digit_at ds 3)) mod 10.

(** The modules after the start guard of an add-on, as section 4.3 lays
    them out: the code of each digit, from the table its parity character
    selects, and the separator between two digits, none after the last. *)
Fixpoint addon_digit_modules (parity ds : str) : str :=
  match parity, ds with
  | p :: _, [d] =>
      code_in (left_table AddonEncoder.L_CODES AddonEncoder.G_CODES p) d
  | p :: parity', d :: ds' =>
      code_in (left_table AddonEncoder.L_CODES AddonEncoder.G_CODES p) d
        ++ AddonEncoder.SEPARATOR ++ addon_digit_modules parity' ds'
  | _, _ => []
  end.

(** What the claim says of an add-on pattern of [n] modules for [digits],
    the parity string being the entry of [table] at [checksum]. *)
Definition addon_pattern_ok (table : list (Z * str)) (checksum : Z) (n : Z)
           (digits : str) (p : EAN13Encoder.BarcodePattern) : Prop :=
  exists parity,
    dict_get Z.eqb table checksum = Ok parity
    /\ length parity = length digits
    /\ EAN13Encoder.bars p
       = map bit_value (AddonEncoder.START_GUARD ++ addon_digit_modules parity digits)
    /\ EAN13Encoder.module_count p = n
    /\ len (EAN13Encoder.bars p) = n
    /\ slice (EAN13Encoder.bars p) 0 4 = [1; 0; 1; 1]
    /\ EAN13Encoder.guard_positions p = [0; 1; 2; 3].

(** The rational number a finite float is. *)
Definition float_value (x : F64.float) : Q :=
  match x with
  | S754_finite s m (Zneg p) => Qmake (cond_Zopp s (Zpos m)) (2 ^ p)
  | S754_finite s m e => inject_Z (cond_Zopp s (Zpos m) * 2 ^ e)
  | _ => 0%Q
  end.

(** [t] is [q] rounded toward zero. *)
Definition truncation_of (q : Q) (t : Z) : Prop :=
  ((0 <= q)%Q -> (inject_Z t <= q)%Q /\ (q < inject_Z t + 1)%Q)
  /\ ((q <= 0)%Q -> (inject_Z t - 1 < q)%Q /\ (q <= inject_Z t)%Q).

(** [round(q)]: the nearest integer, the even one of two equally near. *)
Definition round_half_even (q : Q) : Z :=
  let f := Qfloor q in
  match Qcompare (q - inject_Z f) (1 # 2) with
  | Lt => f
  | Gt => f + 1
  | Eq => if Z.even f then f else f + 1
  end.

(** [int(n * x)]. *)
Definition int_of_product (n : Z) (x : F64.float) : result Z :=
  q <- F64.int_mul_float n x ;; F64.to_int q.

(** [int(n / x)]. *)
Definition int_of_quotient (n : Z) (x : F64.float) : result Z :=
  q <- F64.int_div_float n x ;; F64.to_int q.

(** The float [mm * dpi / 25.4] that [_mm_to_px] converts to an int. *)
Definition mm_dpi_quotient (mm : F64.float) (dpi : Z) : result F64.float :=
  p <- F64.float_mul_int mm dpi ;;
  F64.truediv p (F64.decimal 254 10).

(** The default size in pixels, the first thing [_calculate_image_size]
    computes: the standard width and height converted, the width of the
    add-on, its gap and its margin added when there is one. *)
Definition default_size_px (config : TIFRenderer.RenderConfig) : result (Z * Z) :=
  default_width_px <-
    TIFRenderer._mm_to_px TIFRenderer.STANDARD_TOTAL_WIDTH_MM (TIFRenderer.dpi config) ;;
  default_height_px <-
    TIFRenderer._mm_to_px TIFRenderer.STANDARD_TOTAL_HEIGHT_MM (TIFRenderer.dpi config) ;;
  match TIFRenderer.addon_pattern config with
  | Some addon =>
      addon_width_mm <-
        F64.int_mul_float
          (EAN13Encoder.module_count addon + TIFRenderer.ADDON_GAP_MODULES + 5)
          TIFRenderer.STANDARD_MODULE_WIDTH_MM ;;
      addon_width_px <- TIFRenderer._mm_to_px addon_width_mm (TIFRenderer.dpi config) ;;
      Ok (default_width_px + addon_width_px, default_height_px)
  | None => Ok (default_width_px, default_height_px)
  end.

(** The size requested on one axis, in pixels: the pixel value when there
    is one, else the millimetre value converted, else none. *)
Definition requested_px (px : option Z) (mm : option F64.float) (dpi : Z)
  : result (option Z) :=
  match px with
  | Some v => Ok (Some v)
  | None =>
      match mm with
      | Some m => v <- TIFRenderer._mm_to_px m dpi ;; Ok (Some v)
      | None => Ok None
      end
  end.

(** The size resolved from the two requests, as section 4.4 words it: with
    the lock, one axis given derives the other from the default ratio,
    none given is the default size and both given are kept; without the
    lock each axis not given falls back on its default. *)
Definition resolved_size (lock : bool) (default_width_px default_height_px : Z)
           (w_req h_req : option Z) : result (Z * Z) :=
  if lock then
    aspect_ratio <- F64.int_truediv default_width_px default_height_px ;;
    match w_req, h_req with
    | Some w, None => h <- int_of_quotient w aspect_ratio ;; Ok (w, h)
    | None, Some h => w <- int_of_product h aspect_ratio ;; Ok (w, h)
    | None, None => Ok (default_width_px, default_height_px)
    | Some w, Some h => Ok (w, h)
    end
  else
    Ok (match w_req with Some w => w | None => default_width_px end,
        match h_req with Some h => h | None => default_height_px end).

(** The millimetre conversion as the specification words it:
    [round(mm * dpi / 25.4)]. *)
Definition mm_to_px_rounds (mm : F64.float) (dpi : Z) : Prop :=
  exists q,
    mm_dpi_quotient mm dpi = Ok q
    /\ TIFRenderer._mm_to_px mm dpi = Ok (round_half_even (float_value q)).

(** A [RenderConfig] built with the defaults of the dataclass. *)
Definition default_config (isbn : ISBNValidator.ParsedISBN)
           (barcode_pattern : EAN13Encoder.BarcodePattern) : TIFRenderer.RenderConfig :=
  {| TIFRenderer.isbn := isbn;
     TIFRenderer.barcode_pattern := barcode_pattern;
     TIFRenderer.addon_pattern := None;
     TIFRenderer.addon_digits := None;
     TIFRenderer.dpi := 300;
     TIFRenderer.width_mm := None;
     TIFRenderer.height_mm := None;
     TIFRenderer.width_px := None;
     TIFRenderer.height_px := None;
     TIFRenderer.lock_aspect_ratio := true;
     TIFRenderer.color_mode := TIFRenderer.BITMAP;
     TIFRenderer.foreground_color := [0; 0; 0];
     TIFRenderer.background_color := [255; 255; 255];
     TIFRenderer.font_family := lit "Arial";
     TIFRenderer.font_size := 10;
     TIFRenderer.letter_spacing := S754_zero false;
     TIFRenderer.isbn_text_offset_y := 5;
     TIFRenderer.digits_offset_y := 2;
     TIFRenderer.text_alignment := TIFRenderer.CENTER;
     TIFRenderer.show_quiet_zone_indicator := true |}.

(** The pattern and the parsed form of 9787564922351, the identifier of
    the end-to-end scenario of section 8. *)
Definition sample_pattern : EAN13Encoder.BarcodePattern :=
  match EAN13Encoder.encode (lit "9787564922351") with
  | Ok p => p
  | Raise _ => {| EAN13Encoder.bars := []; EAN13Encoder.module_count := 0;
                  EAN13Encoder.guard_positions := [] |}
  end.

Definition sample_isbn : ISBNValidator.ParsedISBN :=
  {| ISBNValidator.raw := lit "9787564922351";
     ISBNValidator.digits := lit "9787564922351";
     ISBNValidator.formatted := lit "ISBN 978-7-5649-2235-1";
     ISBNValidator.parsed_is_valid := true;
     ISBNValidator.parsed_error_message := None |}.

Definition sample_config : TIFRenderer.RenderConfig :=
  default_config sample_isbn sample_pattern.

(** The sample with an EAN-5 add-on. *)
Definition sample_addon_config : TIFRenderer.RenderConfig :=
  let c := sample_config in
  {| TIFRenderer.isbn := TIFRenderer.isbn c;
     TIFRenderer.barcode_pattern := TIFRenderer.barcode_pattern c;
     TIFRenderer.addon_pattern :=
       match AddonEncoder.encode_5 (lit "52495") with
       | Ok p => Some p
       | Raise _ => None
       end;
     TIFRenderer.addon_digits := Some (lit "52495");
     TIFRenderer.dpi := TIFRenderer.dpi c;
     TIFRenderer.width_mm := TIFRenderer.width_mm c;
     TIFRenderer.height_mm := TIFRenderer.height_mm c;
     TIFRenderer.width_px := TIFRenderer.width_px c;
     TIFRenderer.height_px := TIFRenderer.height_px c;
     TIFRenderer.lock_aspect_ratio := TIFRenderer.lock_aspect_ratio c;
     TIFRenderer.color_mode := TIFRenderer.color_mode c;
     TIFRenderer.foreground_color := TIFRenderer.foreground_color c;
     TIFRenderer.background_color := TIFRenderer.background_color c;
     TIFRenderer.font_family := TIFRenderer.font_family c;
     TIFRenderer.font_size := TIFRenderer.font_size c;
     TIFRenderer.letter_spacing := TIFRenderer.letter_spacing c;
     TIFRenderer.isbn_text_offset_y := TIFRenderer.isbn_text_offset_y c;
     TIFRenderer.digits_offset_y := TIFRenderer.digits_offset_y c;
     TIFRenderer.text_alignment := TIFRenderer.text_alignment c;
     TIFRenderer.show_quiet_zone_indicator := TIFRenderer.show_quiet_zone_indicator c |}.

(** [c] with another requested size. *)
Definition with_size (c : TIFRenderer.RenderConfig)
           (width_mm height_mm : option F64.float) (width_px height_px : option Z)
           (lock_aspect_ratio : bool) : TIFRenderer.RenderConfig :=
  {| TIFRenderer.isbn := TIFRenderer.isbn c;
     TIFRenderer.barcode_pattern := TIFRenderer.barcode_pattern c;
     TIFRenderer.addon_pattern := TIFRenderer.addon_pattern c;
     TIFRenderer.addon_digits := TIFRenderer.addon_digits c;
     TIFRenderer.dpi := TIFRenderer.dpi c;
     TIFRenderer.width_mm := width_mm;
     TIFRenderer.height_mm := height_mm;
     TIFRenderer.width_px := width_px;
     TIFRenderer.height_px := height_px;
     TIFRenderer.lock_aspect_ratio := lock_aspect_ratio;
     TIFRenderer.color_mode := TIFRenderer.color_mode c;
     TIFRenderer.foreground_color := TIFRenderer.foreground_color c;
     TIFRenderer.background_color := TIFRenderer.background_color c;
     TIFRenderer.font_family := TIFRenderer.font_family c;
     TIFRenderer.font_size := TIFRenderer.font_size c;
     TIFRenderer.letter_spacing := TIFRenderer.letter_spacing c;
     TIFRenderer.isbn_text_offset_y := TIFRenderer.isbn_text_offset_y c;
     TIFRenderer.digits_offset_y := TIFRenderer.digits_offset_y c;
     TIFRenderer.text_alignment := TIFRenderer.text_alignment c;
     TIFRenderer.show_quiet_zone_indicator := TIFRenderer.show_quiet_zone_indicator c |}.

Definition is_ok {A} (r : result A) : bool :=
  match r with
  | Ok _ => true
  | Raise _ => false
  end.

Definition value_of (r : result Z) : Z :=
  match r with
  | Ok v => v
  | Raise _ => 0
  end.

(** The indices of the dark modules, in increasing order. *)
Definition dark_from (i : nat) (bars : list Z) : list nat :=
  map fst (filter (fun ib => snd ib =? 1) (enumerate_from i bars)).

Definition dark_modules (bars : list Z) : list nat := dark_from 0 bars.

(** The rectangle of the dark module [i]: from the left edge of the area
    plus [int(i * module_width)], [int(module_width)] further to the right;
    from the top of the band down to its bottom, and [int(height * 0.1)]
    below it when [i] is a guard position. *)
Definition bar_rectangle (pattern : EAN13Encoder.BarcodePattern) (area : TIFRenderer.Area)
           (module_width_px : F64.float) (fill : TIFRenderer.color_value) (i : nat)
  : TIFRenderer.Rectangle :=
  let bar_x :=
    TIFRenderer.area_x area + value_of (int_of_product (Z.of_nat i) module_width_px) in
  let guard_extension :=
    value_of (int_of_product (TIFRenderer.area_height area) (F64.decimal 1 10)) in
  {| TIFRenderer.x0 := bar_x;
     TIFRenderer.y0 := TIFRenderer.area_y area;
     TIFRenderer.x1 := bar_x + value_of (F64.to_int module_width_px);
     TIFRenderer.y1 :=
       TIFRenderer.area_y area + TIFRenderer.area_height area
       + (if int_in (Z.of_nat i) (EAN13Encoder.guard_positions pattern)
          then guard_extension else 0);
     TIFRenderer.fill := fill |}.

(** The bars as the specification words them: the dark module [i] drawn
    at [area.x + round(i * module_width)], one module width wide. *)
Definition bars_drawn_as_stated (pattern : EAN13Encoder.BarcodePattern)
           (config : TIFRenderer.RenderConfig) (area : TIFRenderer.Area)
           (module_width_px : F64.float) : Prop :=
  exists drawn,
    TIFRenderer._draw_barcode [] pattern config area module_width_px = Ok drawn
    /\ forall i, nth_error (EAN13Encoder.bars pattern) i = Some 1 ->
         exists q r,
           F64.int_mul_float (Z.of_nat i) module_width_px = Ok q
           /\ In r drawn
           /\ TIFRenderer.x0 r = TIFRenderer.area_x area + round_half_even (float_value q)
           /\ (inject_Z (TIFRenderer.x1 r - TIFRenderer.x0 r) == float_value module_width_px)%Q.

(** The module width and the area of the sample at its default size,
    440 by 306 pixels. *)
Definition sample_module_width : F64.float :=
  match TIFRenderer._calculate_module_width sample_config 440 with
  | Ok w => w
  | Raise _ => S754_nan
  end.

Definition sample_area : TIFRenderer.Area :=
  match TIFRenderer._calculate_barcode_area sample_config 440 306 sample_module_width with
  | Ok a => a
  | Raise _ =>
      {| TIFRenderer.area_x := 0; TIFRenderer.area_y := 0; TIFRenderer.area_width := 0;
         TIFRenderer.area_height := 0; TIFRenderer.area_module_width := S754_nan |}
  end.

(** The fields of a render-configuration document and what each holds
    (section 6): an int, a float, either or nothing, a bool, a string, or
    a tuple of ints for a colour. *)
Inductive field_kind :=
| KInt | KFloat | KOptInt | KOptFloat | KBool | KStr | KColor.

Definition key_in (key : str) (names : list string) : bool :=
  existsb (fun name => str_eqb key (lit name)) names.

Definition field_kind_of (key : str) : option field_kind :=
  if TemplateManager.is_color_key key then Some KColor
  else if key_in key ["dpi"; "font_size"; "isbn_text_offset_y"; "digits_offset_y"]%string
       then Some KInt
  else if key_in key ["width_mm"; "height_mm"]%string then Some KOptFloat
  else if key_in key ["width_px"; "height_px"]%string then Some KOptInt
  else if key_in key ["lock_aspect_ratio"; "show_quiet_zone_indicator"]%string
       then Some KBool
  else if key_in key ["color_mode"; "font_family"; "text_alignment"]%string
       then Some KStr
  else if key_in key ["letter_spacing"]%string then Some KFloat
  else None.

Definition is_int_value (v : TemplateManager.pyval) : bool :=
  match v with
  | TemplateManager.VInt _ => true
  | _ => false
  end.

Definition has_kind (k : field_kind) (v : TemplateManager.pyval) : bool :=
  match k, v with
  | KInt, TemplateManager.VInt _ => true
  | KFloat, (TemplateManager.VFloat _ | TemplateManager.VInt _) => true
  | KOptInt, (TemplateManager.VInt _ | TemplateManager.VNone) => true
  | KOptFloat, (TemplateManager.VFloat _ | TemplateManager.VInt _
                | TemplateManager.VNone) => true
  | KBool, TemplateManager.VBool _ => true
  | KStr, TemplateManager.VStr _ => true
  | KColor, TemplateManager.VTuple items => forallb is_int_value items
  | _, _ => false
  end.

Definition config_field_ok (item : str * TemplateManager.pyval) : bool :=
  match field_kind_of (fst item) with
  | Some k => has_kind k (snd item)
  | None => false
  end.

Fixpoint distinct_keys (keys : list str) : bool :=
  match keys with
  | [] => true
  | key :: rest => negb (existsb (str_eqb key) rest) && distinct_keys rest
  end.

(** A render-configuration document: a dict, so with distinct keys, of
    recognised fields, each holding a value of its kind. *)
Definition config_document (config : TemplateManager.dict) : Prop :=
  distinct_keys (map fst config) = true /\ forallb config_field_ok config = true.

(** What the two loops store for one item. *)
Definition serialized_value (value : TemplateManager.pyval) : TemplateManager.pyval :=
  match value with
  | TemplateManager.VTuple items => TemplateManager.VList items
  | _ =>
      match TemplateManager.getattr value (lit "value") with
      | Some v => v
      | None =>
          match TemplateManager.getattr value (lit "name") with
          | Some n => n
          | None => value
          end
      end
  end.

Definition deserialized_value (key : str) (value : TemplateManager.pyval)
  : TemplateManager.pyval :=
  match value with
  | TemplateManager.VList items =>
      if TemplateManager.is_color_key key then TemplateManager.VTuple items else value
  | _ => value
  end.

(** The default template of the source, its colours as tuples. *)
Definition sample_document : TemplateManager.dict :=
  [ (lit "dpi", TemplateManager.VInt 1200);
    (lit "width_mm", TemplateManager.VFloat (F64.decimal 325 10));
    (lit "height_mm", TemplateManager.VFloat (F64.decimal 226 10));
    (lit "width_px", TemplateManager.VNone);
    (lit "height_px", TemplateManager.VNone);
    (lit "lock_aspect_ratio", TemplateManager.VBool true);
    (lit "color_mode", TemplateManager.VStr (lit "BITMAP"));
    (lit "foreground_color",
      TemplateManager.VTuple
        [TemplateManager.VInt 0; TemplateManager.VInt 0; TemplateManager.VInt 0]);
    (lit "background_color",
      TemplateManager.VTuple
        [TemplateManager.VInt 255; TemplateManager.VInt 255; TemplateManager.VInt 255]);
    (lit "font_family", TemplateManager.VStr (lit "Arial"));
    (lit "font_size", TemplateManager.VInt 125);
    (lit "letter_spacing", TemplateManager.VFloat (F64.decimal 4 1));
    (lit "isbn_text_offset_y", TemplateManager.VInt 4);
    (lit "digits_offset_y", TemplateManager.VInt 3);
    (lit "text_alignment", TemplateManager.VStr (lit "center"));
    (lit "show_quiet_zone_indicator", TemplateManager.VBool true) ].

End Reference.

(** * Properties *)

Import EAN13Encoder Reference.

(** ** Lists and strings *)

Section ListFacts.

Context {A : Type}.

Lemma slice_middle (pre mid post : list A) (lo hi : nat) :
  length pre = lo -> length mid = (hi - lo)%nat ->
  slice (pre ++ mid ++ post) lo hi = mid.
Proof.
  intros <- Hmid. unfold slice.
  rewrite skipn_app, skipn_all, Nat.sub_diag. simpl.
  rewrite <- Hmid, firstn_app, firstn_all, Nat.sub_diag. simpl.
  apply app_nil_r.
Qed.

Lemma slice_prefix (mid post : list A) (hi : nat) :
  length mid = hi -> slice (mid ++ post) 0 hi = mid.
Proof.
  intros H. apply (slice_middle [] mid post 0 hi); [reflexivity | now rewrite Nat.sub_0_r].
Qed.

Lemma skipn_nth_cons (l : list A) (i : nat) (x : A) :
  nth_error l i = Some x -> skipn i l = x :: skipn (S i) l.
Proof.
  revert i. induction l as [|y l IH]; intros [|i] H; simpl in *; try discriminate.
  - now injection H as ->.
  - now apply IH.
Qed.

Lemma len_app (l1 l2 : list A) : len (l1 ++ l2) = len l1 + len l2.
Proof. unfold len. rewrite length_app. lia. Qed.

End ListFacts.

Lemma str_eqb_refl (s : str) : str_eqb s s = true.
Proof. induction s as [|c s IH]; simpl; [reflexivity|]. now rewrite Ascii.eqb_refl. Qed.

Lemma str_eqb_eq (s t : str) : str_eqb s t = true <-> s = t.
Proof.
  revert t. induction s as [|c s IH]; intros [|d t]; simpl; split; try easy.
  - intros H. apply andb_true_iff in H as [H1 H2].
    apply Ascii.eqb_eq in H1. apply IH in H2. congruence.
  - intros [= -> ->]. now rewrite Ascii.eqb_refl, str_eqb_refl.
Qed.

(** ** Digits and the digit tables *)

Lemma ascii_digit_cases (c : ascii) :
  is_ascii_digit c = true -> In c (lit "0123456789").
Proof.
  destruct c as [[] [] [] [] [] [] [] []]; intros H;
    try discriminate H; simpl; tauto.
Qed.

Ltac digit_cases H :=
  apply ascii_digit_cases in H; simpl in H;
  repeat (destruct H as [H | H]; [subst | ]); try contradiction.

Lemma ascii_digit_isdigit (c : ascii) :
  is_ascii_digit c = true -> char_isdigit c = true.
Proof. intros H. unfold char_isdigit. now rewrite H. Qed.

Lemma ascii_digits_isdigit (s : str) :
  s <> [] -> forallb is_ascii_digit s = true -> isdigit s = true.
Proof.
  intros Hne H. destruct s as [|c s]; [congruence|].
  unfold isdigit. apply forallb_forall. intros x Hx.
  apply ascii_digit_isdigit. now apply (proj1 (forallb_forall _ _) H).
Qed.

Lemma L_CODES_table : digit_table L_CODES.
Proof. intros d H. digit_cases H; vm_compute; auto. Qed.

Lemma G_CODES_table : digit_table G_CODES.
Proof. intros d H. digit_cases H; vm_compute; auto. Qed.

Lemma R_CODES_table : digit_table R_CODES.
Proof. intros d H. digit_cases H; vm_compute; auto. Qed.

Lemma left_table_digit_table (lcodes gcodes : list (str * str)) (p : ascii) :
  digit_table lcodes -> digit_table gcodes ->
  digit_table (left_table lcodes gcodes p).
Proof. intros HL HG. unfold left_table. now destruct (Ascii.eqb p "L"). Qed.

Lemma get_parity_pattern_digit (d : ascii) :
  is_ascii_digit d = true ->
  _get_parity_pattern [d] = Ok (parity_of d) /\ length (parity_of d) = 6%nat.
Proof. intros H. digit_cases H; vm_compute; auto. Qed.

(** ** The loops of the encoders *)

Lemma getitem_nth (s : str) (i : nat) (c : ascii) :
  nth_error s i = Some c -> getitem s i = Ok [c].
Proof. intros H. unfold getitem. now rewrite H. Qed.

Lemma left_code_choice (lcodes gcodes : list (str * str)) (acc : str) (p d : ascii) :
  digit_table lcodes -> digit_table gcodes -> is_ascii_digit d = true ->
  (if str_eqb [p] (lit "L") then
     code <- dict_get str_eqb lcodes [d] ;; Ok (acc ++ code)
   else
     code <- dict_get str_eqb gcodes [d] ;; Ok (acc ++ code))
  = Ok (acc ++ code_in (left_table lcodes gcodes p) d).
Proof.
  intros HL HG Hd. unfold left_table. cbn [str_eqb lit list_ascii_of_string].
  rewrite andb_true_r.
  destruct (Ascii.eqb p "L").
  - destruct (HL d Hd) as [-> _]. reflexivity.
  - destruct (HG d Hd) as [-> _]. reflexivity.
Qed.

Lemma left_loop (parity : str) :
  forall (ds : str) (i : nat) (acc : str),
    (i + length ds <= length parity)%nat ->
    forallb is_ascii_digit ds = true ->
    for_each
      (fun bars_str '(i, digit) =>
         p <- getitem parity i ;;
         if str_eqb p (lit "L") then
           code <- dict_get str_eqb L_CODES digit ;; Ok (bars_str ++ code)
         else
           code <- dict_get str_eqb G_CODES digit ;; Ok (bars_str ++ code))
      (enumerate_from i (chars ds)) acc
    = Ok (acc ++ left_codes L_CODES G_CODES (skipn i parity) ds).
Proof.
  induction ds as [|d ds IH]; intros i acc Hlen Hds.
  - cbn. destruct (skipn i parity); now rewrite app_nil_r.
  - cbn [forallb length] in *. apply andb_true_iff in Hds as [Hd Hds].
    destruct (nth_error parity i) as [p|] eqn:Hp.
    2:{ apply nth_error_None in Hp. lia. }
    cbn [chars map enumerate_from for_each]. fold (chars ds).
    rewrite (getitem_nth _ _ _ Hp). cbn [bind].
    rewrite (left_code_choice _ _ _ p d L_CODES_table G_CODES_table Hd).
    cbn [bind]. rewrite IH by (auto; lia).
    rewrite (skipn_nth_cons _ _ _ Hp). cbn [left_codes].
    now rewrite <- app_assoc.
Qed.

Lemma right_loop :
  forall (ds acc : str),
    forallb is_ascii_digit ds = true ->
    for_each
      (fun bars_str digit =>
         code <- dict_get str_eqb R_CODES digit ;; Ok (bars_str ++ code))
      (chars ds) acc
    = Ok (acc ++ right_codes ds).
Proof.
  induction ds as [|d ds IH]; intros acc Hds.
  - simpl. now rewrite app_nil_r.
  - cbn [forallb] in Hds. apply andb_true_iff in Hds as [Hd Hds].
    cbn [chars map for_each].
    destruct (R_CODES_table d Hd) as [-> _]. cbn [bind].
    fold (chars ds). rewrite IH by assumption.
    cbn [right_codes flat_map]. now rewrite <- app_assoc.
Qed.

Lemma bars_of_modules (s : str) :
  forallb is_bit s = true ->
  comprehension int_of_str (chars s) = Ok (map bit_value s).
Proof.
  induction s as [|c s IH]; intros H; simpl in *; [reflexivity|].
  apply andb_true_iff in H as [Hc Hs]. rewrite (IH Hs). clear IH.
  unfold is_bit in Hc. apply orb_true_iff in Hc as [Hc | Hc];
    apply Ascii.eqb_eq in Hc; subst c; reflexivity.
Qed.

Lemma left_codes_shape (lcodes gcodes : list (str * str)) :
  digit_table lcodes -> digit_table gcodes ->
  forall (parity ds : str),
    (length ds <= length parity)%nat ->
    forallb is_ascii_digit ds = true ->
    length (left_codes lcodes gcodes parity ds) = (7 * length ds)%nat
    /\ forallb is_bit (left_codes lcodes gcodes parity ds) = true.
Proof.
  intros HL HG. induction parity as [|p parity IH]; intros [|d ds] Hlen Hds;
    simpl in *; try (split; [reflexivity | reflexivity]); try lia.
  apply andb_true_iff in Hds as [Hd Hds].
  destruct (left_table_digit_table lcodes gcodes p HL HG d Hd) as (_ & H7 & Hb & _).
  destruct (IH ds ltac:(lia) Hds) as [IHl IHb].
  rewrite length_app, forallb_app, H7, IHl, Hb, IHb. split; [lia | reflexivity].
Qed.

Lemma right_codes_shape :
  forall ds : str,
    forallb is_ascii_digit ds = true ->
    length (right_codes ds) = (7 * length ds)%nat
    /\ forallb is_bit (right_codes ds) = true.
Proof.
  induction ds as [|d ds IH]; intros Hds; simpl in *; [split; reflexivity|].
  apply andb_true_iff in Hds as [Hd Hds].
  destruct (R_CODES_table d Hd) as (_ & H7 & Hb & _).
  destruct (IH Hds) as [IHl IHb].
  rewrite length_app, forallb_app, H7, IHl, Hb, IHb. split; [lia | reflexivity].
Qed.
Ltac explode13 digits Hlen :=
  do 13 (destruct digits as [|? digits]; [discriminate Hlen|]);
  destruct digits; [|discriminate Hlen]; clear Hlen.

Ltac split_digits H :=
  cbn [forallb] in H;
  repeat (let Hd := fresh "Hd" in apply andb_true_iff in H as [Hd H]).

Lemma forallb_firstn {A} (f : A -> bool) (n : nat) (l : list A) :
  forallb f l = true -> forallb f (firstn n l) = true.
Proof.
  revert l. induction n as [|n IH]; intros [|x l] H; simpl in *; try reflexivity.
  apply andb_true_iff in H as [-> H]. now apply IH.
Qed.

Lemma forallb_skipn {A} (f : A -> bool) (n : nat) (l : list A) :
  forallb f l = true -> forallb f (skipn n l) = true.
Proof.
  revert l. induction n as [|n IH]; intros [|x l] H; simpl in *; try assumption.
  apply andb_true_iff in H as [_ H]. now apply IH.
Qed.

Lemma forallb_slice {A} (f : A -> bool) (l : list A) (lo hi : nat) :
  forallb f l = true -> forallb f (slice l lo hi) = true.
Proof. intros H. unfold slice. now apply forallb_firstn, forallb_skipn. Qed.

Lemma ean13_modules_shape (digits : str) :
  length digits = 13%nat -> forallb is_ascii_digit digits = true ->
  length (ean13_modules digits) = 95%nat
  /\ forallb is_bit (ean13_modules digits) = true.
Proof.
  intros Hlen Hds.
  assert (Hl := forallb_slice _ _ 1 7 Hds).
  assert (Hr := forallb_slice _ _ 7 13 Hds).
  assert (H0 : is_ascii_digit (nth 0 digits "0"%char) = true).
  { destruct digits; [discriminate|]. simpl in *. now apply andb_true_iff in Hds. }
  destruct (get_parity_pattern_digit _ H0) as [_ Hpar].
  assert (Hll : length (slice digits 1 7) = 6%nat).
  { unfold slice. rewrite length_firstn, length_skipn. lia. }
  assert (Hlr : length (slice digits 7 13) = 6%nat).
  { unfold slice. rewrite length_firstn, length_skipn. lia. }
  destruct (left_codes_shape L_CODES G_CODES L_CODES_table G_CODES_table
              (parity_of (nth 0 digits "0"%char)) (slice digits 1 7)
              ltac:(lia) Hl) as [HL1 HL2].
  destruct (right_codes_shape (slice digits 7 13) Hr) as [HR1 HR2].
  unfold ean13_modules.
  rewrite !length_app, !forallb_app, HL1, HL2, HR1, HR2, Hll, Hlr.
  split; reflexivity.
Qed.

Lemma encode_shape (digits : str) :
  length digits = 13%nat -> forallb is_ascii_digit digits = true ->
  encode digits
  = Ok {| bars := map bit_value (ean13_modules digits);
          module_count := 95;
          guard_positions := [0; 1; 2; 45; 46; 47; 48; 49; 92; 93; 94] |}.
Proof.
  intros Hlen Hds.
  destruct (ean13_modules_shape digits Hlen Hds) as [H95 Hbits].
  assert (Hl := forallb_slice _ _ 1 7 Hds).
  assert (Hr := forallb_slice _ _ 7 13 Hds).
  assert (Hll : length (slice digits 1 7) = 6%nat).
  { unfold slice. rewrite length_firstn, length_skipn. lia. }
  assert (Hlr : length (slice digits 7 13) = 6%nat).
  { unfold slice. rewrite length_firstn, length_skipn. lia. }
  unfold encode.
  replace (len digits =? 13) with true by (unfold len; rewrite Hlen; reflexivity).
  rewrite (ascii_digits_isdigit digits) by (auto; destruct digits; discriminate).
  cbn [negb].
  destruct digits as [|c0 rest] eqn:E; [discriminate|]. rewrite <- E in *.
  assert (H0 : is_ascii_digit c0 = true).
  { rewrite E in Hds. simpl in Hds. now apply andb_true_iff in Hds. }
  replace (getitem digits 0) with (Ok (A:=str) [c0]) by (rewrite E; reflexivity).
  cbn [bind].
  destruct (get_parity_pattern_digit c0 H0) as [-> Hpar]. cbn [bind].
  unfold enumerate. 
  rewrite (left_loop (parity_of c0) (slice digits 1 7) 0) by (auto; lia).
  cbn [bind skipn].
  rewrite right_loop by assumption. cbn [bind].
  destruct (left_codes_shape L_CODES G_CODES L_CODES_table G_CODES_table
              (parity_of c0) (slice digits 1 7) ltac:(lia) Hl) as [HL _].
  destruct (right_codes_shape (slice digits 7 13) Hr) as [HR _].
  assert (Hm : ((((lit "" ++ START_GUARD)
                   ++ left_codes L_CODES G_CODES (parity_of c0) (slice digits 1 7))
                  ++ CENTER_GUARD) ++ right_codes (slice digits 7 13)) ++ END_GUARD
               = ean13_modules digits).
  { unfold ean13_modules. rewrite E at 3. cbn [nth lit list_ascii_of_string app].
    now rewrite <- !app_assoc. }
  rewrite Hm, (bars_of_modules _ Hbits). cbn [bind].
  unfold len. rewrite length_map, H95, !length_app, HL, HR, Hll, Hlr.
  reflexivity.
Qed.


Section SliceFacts.
Context {A B : Type}.

Lemma slice_map (f : A -> B) (l : list A) (lo hi : nat) :
  slice (map f l) lo hi = map f (slice l lo hi).
Proof. unfold slice. now rewrite skipn_map, firstn_map. Qed.

Lemma slice_app_r (pre l : list A) (n lo hi : nat) :
  length pre = n -> slice (pre ++ l) (n + lo) (n + hi) = slice l lo hi.
Proof.
  intros <-. unfold slice.
  rewrite skipn_app, skipn_all2 by lia. simpl.
  f_equal; [lia | f_equal; lia].
Qed.

Lemma slice_app_l (l post : list A) (lo hi : nat) :
  (hi <= length l)%nat -> slice (l ++ post) lo hi = slice l lo hi.
Proof.
  intros H. unfold slice. rewrite skipn_app, firstn_app, length_skipn.
  replace (hi - lo - (length l - lo))%nat with 0%nat by lia.
  simpl. apply app_nil_r.
Qed.

Lemma slice_all (l : list A) (n : nat) : length l = n -> slice l 0 n = l.
Proof. intros <-. unfold slice. simpl. rewrite Nat.sub_0_r. apply firstn_all. Qed.
End SliceFacts.

Lemma left_codes_group (lcodes gcodes : list (str * str)) :
  digit_table lcodes -> digit_table gcodes ->
  forall (i : nat) (parity ds : str) (p d : ascii),
    forallb is_ascii_digit ds = true ->
    nth_error parity i = Some p -> nth_error ds i = Some d ->
    slice (left_codes lcodes gcodes parity ds) (7 * i) (7 * i + 7)
    = code_in (left_table lcodes gcodes p) d.
Proof.
  intros HL HG.
  induction i as [|i IH]; intros [|q parity] [|c ds] p d Hds Hp Hd;
    try discriminate; cbn [forallb] in Hds; apply andb_true_iff in Hds as [Hc Hds];
    destruct (left_table_digit_table lcodes gcodes q HL HG c Hc) as (_ & H7 & _);
    cbn [left_codes nth_error] in *.
  - injection Hp as ->. injection Hd as ->.
    rewrite slice_app_l by (rewrite H7; lia). now apply slice_all.
  - replace (7 * S i)%nat with (7 + 7 * i)%nat by lia.
    replace (7 + 7 * i + 7)%nat with (7 + (7 * i + 7))%nat by lia.
    rewrite (slice_app_r _ _ 7) by assumption. now apply IH.
Qed.

Lemma right_codes_group :
  forall (i : nat) (ds : str) (d : ascii),
    forallb is_ascii_digit ds = true ->
    nth_error ds i = Some d ->
    slice (right_codes ds) (7 * i) (7 * i + 7) = code_in R_CODES d.
Proof.
  induction i as [|i IH]; intros [|c ds] d Hds Hd;
    try discriminate; cbn [forallb] in Hds; apply andb_true_iff in Hds as [Hc Hds];
    destruct (R_CODES_table c Hc) as (_ & H7 & _);
    cbn [right_codes flat_map nth_error] in *.
  - injection Hd as ->.
    rewrite slice_app_l by (rewrite H7; lia). now apply slice_all.
  - replace (7 * S i)%nat with (7 + 7 * i)%nat by lia.
    replace (7 + 7 * i + 7)%nat with (7 + (7 * i + 7))%nat by lia.
    rewrite (slice_app_r _ _ 7) by assumption. now apply IH.
Qed.

Lemma bit_values (s : str) : Forall (fun b => b = 0 \/ b = 1) (map bit_value s).
Proof.
  induction s as [|c s IH]; simpl; constructor; auto.
  unfold bit_value. destruct (Ascii.eqb c "1"); auto.
Qed.

(** Claim C1.  For every string of 13 ASCII digits, [encode] returns a
    pattern whose [module_count] is 95, with 95 modules; modules 0 to 2 are
    [1,0,1], modules 45 to 49 are [0,1,0,1,0], modules 92 to 94 are [1,0,1];
    every module is 0 or 1; and [guard_positions] lists exactly the indices
    of the three guards, 0..2, 45..49 and 92..94. *)
Theorem encode_length_and_guards (digits : str) :
  length digits = 13%nat -> forallb is_ascii_digit digits = true ->
  exists p,
    encode digits = Ok p
    /\ module_count p = 95
    /\ length (bars p) = 95%nat
    /\ slice (bars p) 0 3 = [1; 0; 1]
    /\ slice (bars p) 45 50 = [0; 1; 0; 1; 0]
    /\ slice (bars p) 92 95 = [1; 0; 1]
    /\ Forall (fun b => b = 0 \/ b = 1) (bars p)
    /\ guard_positions p = [0; 1; 2; 45; 46; 47; 48; 49; 92; 93; 94].
Proof.
  intros Hlen Hds. rewrite (encode_shape digits Hlen Hds).
  destruct (ean13_modules_shape digits Hlen Hds) as [H95 _].
  eexists. split; [reflexivity|]. cbn [bars module_count guard_positions].
  assert (Hl := forallb_slice _ _ 1 7 Hds).
  assert (Hr := forallb_slice _ _ 7 13 Hds).
  assert (H0 : is_ascii_digit (nth 0 digits "0"%char) = true).
  { destruct digits; [discriminate|]. simpl in *. now apply andb_true_iff in Hds. }
  destruct (get_parity_pattern_digit _ H0) as [_ Hpar].
  assert (Hll : length (slice digits 1 7) = 6%nat).
  { unfold slice. rewrite length_firstn, length_skipn. lia. }
  assert (Hlr : length (slice digits 7 13) = 6%nat).
  { unfold slice. rewrite length_firstn, length_skipn. lia. }
  destruct (left_codes_shape L_CODES G_CODES L_CODES_table G_CODES_table
              (parity_of (nth 0 digits "0"%char)) (slice digits 1 7)
              ltac:(lia) Hl) as [HL _].
  destruct (right_codes_shape (slice digits 7 13) Hr) as [HR _].
  rewrite Hll in HL. rewrite Hlr in HR.
  repeat split; try (apply bit_values); try (rewrite length_map; assumption).
  - unfold ean13_modules. rewrite slice_map, app_assoc.
    rewrite (slice_middle _ CENTER_GUARD _ 45 50); [reflexivity | | reflexivity].
    rewrite length_app, HL. reflexivity.
  - unfold ean13_modules. rewrite slice_map, !app_assoc.
    rewrite <- (app_nil_r END_GUARD).
    rewrite (slice_middle _ END_GUARD [] 92 95); [reflexivity | | reflexivity].
    rewrite !length_app, HL, HR. reflexivity.
Qed.

Lemma encode_length_and_guards_witness :
  exists p,
    encode (lit "9787564922351") = Ok p
    /\ module_count p = 95
    /\ length (bars p) = 95%nat
    /\ slice (bars p) 0 3 = [1; 0; 1]
    /\ slice (bars p) 45 50 = [0; 1; 0; 1; 0]
    /\ slice (bars p) 92 95 = [1; 0; 1]
    /\ Forall (fun b => b = 0 \/ b = 1) (bars p)
    /\ guard_positions p = [0; 1; 2; 45; 46; 47; 48; 49; 92; 93; 94].
Proof. apply (encode_length_and_guards (lit "9787564922351")); reflexivity. Defined.

(** The codes of a digit table are pairwise different. *)
Lemma digit_table_injective (table : list (str * str)) :
  digit_table table ->
  forall d d', is_ascii_digit d = true -> is_ascii_digit d' = true ->
    code_in table d = code_in table d' -> d = d'.
Proof.
  intros HT d d' Hd Hd' E.
  destruct (HT d Hd) as (_ & _ & _ & D). destruct (HT d' Hd') as (_ & _ & _ & D').
  rewrite E in D. congruence.
Qed.

(** Claim C2.  For every string [d] of 13 ASCII digits, in the pattern
    that [encode] returns, modules 3 to 44 are six groups of seven: group
    [i] is the L code of [d[1+i]] when character [i] of the parity pattern
    that [d[0]] selects is ['L'], and its G code otherwise; modules 50 to 91
    are six groups of seven, group [i] the R code of [d[7+i]].  Looking a
    group up in its table gives the digit back, the codes of a table being
    pairwise different: the two halves decode to [d[1:7]] and [d[7:13]]. *)
Theorem encode_halves_decode (digits : str) :
  length digits = 13%nat -> forallb is_ascii_digit digits = true ->
  (exists p,
     encode digits = Ok p
     /\ forall i, (i < 6)%nat ->
          exists par d r,
            nth_error (parity_of (nth 0 digits "0"%char)) i = Some par
            /\ nth_error digits (1 + i) = Some d
            /\ nth_error digits (7 + i) = Some r
            /\ slice (bars p) (3 + 7 * i) (10 + 7 * i)
               = map bit_value
                   (code_in (if Ascii.eqb par "L" then L_CODES else G_CODES) d)
            /\ decode_group (if Ascii.eqb par "L" then L_CODES else G_CODES)
                 (slice (bars p) (3 + 7 * i) (10 + 7 * i)) = Some [d]
            /\ slice (bars p) (50 + 7 * i) (57 + 7 * i)
               = map bit_value (code_in R_CODES r)
            /\ decode_group R_CODES (slice (bars p) (50 + 7 * i) (57 + 7 * i))
               = Some [r])
  /\ (forall table a b,
        In table [L_CODES; G_CODES; R_CODES] ->
        is_ascii_digit a = true -> is_ascii_digit b = true ->
        code_in table a = code_in table b -> a = b).
Proof.
  intros Hlen Hds. split.
  2:{ intros table a b [<- | [<- | [<- | []]]];
        eauto using digit_table_injective, L_CODES_table, G_CODES_table, R_CODES_table. }
  rewrite (encode_shape digits Hlen Hds).
  eexists. split; [reflexivity|]. cbn [bars].
  intros i Hi.
  assert (Hl := forallb_slice _ _ 1 7 Hds).
  assert (Hr := forallb_slice _ _ 7 13 Hds).
  assert (H0 : is_ascii_digit (nth 0 digits "0"%char) = true).
  { destruct digits; [discriminate|]. simpl in *. now apply andb_true_iff in Hds. }
  destruct (get_parity_pattern_digit _ H0) as [_ Hpar].
  assert (Hll : length (slice digits 1 7) = 6%nat).
  { unfold slice. rewrite length_firstn, length_skipn. lia. }
  assert (Hlr : length (slice digits 7 13) = 6%nat).
  { unfold slice. rewrite length_firstn, length_skipn. lia. }
  destruct (left_codes_shape L_CODES G_CODES L_CODES_table G_CODES_table
              (parity_of (nth 0 digits "0"%char)) (slice digits 1 7)
              ltac:(lia) Hl) as [HL _].
  destruct (right_codes_shape (slice digits 7 13) Hr) as [HR _].
  rewrite Hll in HL. rewrite Hlr in HR.
  destruct (nth_error (parity_of (nth 0 digits "0"%char)) i) as [par|] eqn:Epar.
  2:{ apply nth_error_None in Epar. lia. }
  destruct (nth_error digits (1 + i)) as [d|] eqn:Ed.
  2:{ apply nth_error_None in Ed. lia. }
  destruct (nth_error digits (7 + i)) as [r|] eqn:Er.
  2:{ apply nth_error_None in Er. lia. }
  assert (Ed' : nth_error (slice digits 1 7) i = Some d).
  { unfold slice. rewrite nth_error_firstn.
    destruct (Nat.ltb_spec i (7 - 1)); [|lia]. now rewrite nth_error_skipn. }
  assert (Er' : nth_error (slice digits 7 13) i = Some r).
  { unfold slice. rewrite nth_error_firstn.
    destruct (Nat.ltb_spec i (13 - 7)); [|lia]. now rewrite nth_error_skipn. }
  assert (Hd : is_ascii_digit d = true).
  { apply (proj1 (forallb_forall _ _) Hds). eapply nth_error_In; eauto. }
  assert (Hrd : is_ascii_digit r = true).
  { apply (proj1 (forallb_forall _ _) Hds). eapply nth_error_In; eauto. }
  assert (Gl : slice (map bit_value (ean13_modules digits)) (3 + 7 * i) (10 + 7 * i)
               = map bit_value (code_in (left_table L_CODES G_CODES par) d)).
  { unfold ean13_modules. rewrite slice_map. f_equal.
    replace (10 + 7 * i)%nat with (3 + (7 * i + 7))%nat by lia.
    rewrite (slice_app_r START_GUARD _ 3) by reflexivity.
    rewrite slice_app_l by lia.
    now apply left_codes_group; auto using L_CODES_table, G_CODES_table. }
  assert (Gr : slice (map bit_value (ean13_modules digits)) (50 + 7 * i) (57 + 7 * i)
               = map bit_value (code_in R_CODES r)).
  { unfold ean13_modules. rewrite slice_map. f_equal.
    replace (57 + 7 * i)%nat with (50 + (7 * i + 7))%nat by lia.
    rewrite 2 app_assoc.
    rewrite (slice_app_r _ _ 50) by (rewrite !length_app, HL; reflexivity).
    rewrite slice_app_l by lia.
    now apply right_codes_group. }
  exists par, d, r. fold (left_table L_CODES G_CODES par).
  rewrite Gl, Gr.
  destruct (left_table_digit_table L_CODES G_CODES par L_CODES_table G_CODES_table d Hd)
    as (_ & _ & _ & Dl).
  destruct (R_CODES_table r Hrd) as (_ & _ & _ & Dr).
  repeat split; assumption || reflexivity.
Qed.

Lemma encode_halves_decode_witness :
  exists p,
    encode (lit "9787564922351") = Ok p
    /\ slice (bars p) 3 10 = map bit_value (code_in L_CODES "7")
    /\ decode_group L_CODES (slice (bars p) 3 10) = Some (lit "7")
    /\ slice (bars p) 50 57 = map bit_value (code_in R_CODES "9")
    /\ decode_group R_CODES (slice (bars p) 50 57) = Some (lit "9").
Proof.
  destruct (encode_halves_decode (lit "9787564922351") eq_refl eq_refl)
    as [(p & Hp & H) _].
  exists p. split; [exact Hp|].
  destruct (H 0%nat ltac:(lia)) as (par & d & r & Hpar & Hd & Hr & H1 & H2 & H3 & H4).
  injection Hpar as <-. injection Hd as <-. injection Hr as <-.
  repeat split; assumption.
Defined.

(** ** The validator *)

Import ISBNValidator.

Lemma int_of_digit (d : ascii) :
  is_ascii_digit d = true -> int_of_str [d] = Ok (digit_value d).
Proof. intros H. unfold int_of_str. cbn [for_each]. rewrite H. reflexivity. Qed.

Lemma check_digit_loop :
  forall (ds : str) (i : nat) (total : Z),
    forallb is_ascii_digit ds = true ->
    for_each
      (fun total '(i, digit) =>
         let weight := if (Z.of_nat i mod 2 =? 0) then 1 else 3 in
         d <- int_of_str digit ;;
         Ok (total + d * weight))
      (enumerate_from i (chars ds)) total
    = Ok (total + weighted_sum (if Z.of_nat i mod 2 =? 0 then 1 else 3) ds).
Proof.
  induction ds as [|d ds IH]; intros i total Hds.
  - simpl. now rewrite Z.add_0_r.
  - cbn [forallb] in Hds. apply andb_true_iff in Hds as [Hd Hds].
    cbn [chars map enumerate_from for_each]. rewrite (int_of_digit d Hd).
    cbn [bind]. fold (chars ds). rewrite IH by assumption.
    cbn [weighted_sum]. f_equal.
    replace (if Z.of_nat (S i) mod 2 =? 0 then 1 else 3)
      with (4 - (if Z.of_nat i mod 2 =? 0 then 1 else 3)).
    + ring.
    + rewrite Nat2Z.inj_succ. unfold Z.succ.
      destruct (Z.eqb_spec (Z.of_nat i mod 2) 0),
               (Z.eqb_spec ((Z.of_nat i + 1) mod 2) 0);
        Z.to_euclidean_division_equations; lia.
Qed.

Lemma str_of_digit (v : Z) :
  0 <= v < 10 ->
  exists c, str_of_int v = [c] /\ is_ascii_digit c = true /\ digit_value c = v.
Proof.
  intros H.
  assert (E : v = 0 \/ v = 1 \/ v = 2 \/ v = 3 \/ v = 4 \/ v = 5 \/ v = 6
              \/ v = 7 \/ v = 8 \/ v = 9) by lia.
  repeat (destruct E as [E | E]; [subst v; eexists; vm_compute; auto|]).
  subst v; eexists; vm_compute; auto.
Qed.

Lemma digit_value_injective (c c' : ascii) :
  is_ascii_digit c = true -> is_ascii_digit c' = true ->
  digit_value c = digit_value c' -> c = c'.
Proof.
  intros H H' E. digit_cases H; digit_cases H'; try reflexivity; vm_compute in E; discriminate E.
Qed.

Lemma calculate_check_digit_value (prefix12 : str) :
  length prefix12 = 12%nat -> forallb is_ascii_digit prefix12 = true ->
  calculate_check_digit prefix12 = Ok (str_of_int (check_digit prefix12)).
Proof.
  intros Hlen Hds. unfold calculate_check_digit.
  replace (len prefix12 =? 12) with true by (unfold len; rewrite Hlen; reflexivity).
  rewrite (ascii_digits_isdigit prefix12) by (auto; destruct prefix12; discriminate).
  cbn [negb]. unfold enumerate. rewrite check_digit_loop by assumption.
  reflexivity.
Qed.

Lemma extract_digits_id (s : str) :
  forallb is_ascii_digit s = true -> _extract_digits s = s.
Proof.
  unfold _extract_digits. induction s as [|c s IH]; simpl; [reflexivity|].
  intros H. apply andb_true_iff in H as [-> H]. now rewrite IH.
Qed.

Lemma startswith_app (s t pre : str) :
  (length pre <= length s)%nat -> startswith (s ++ t) pre = startswith s pre.
Proof.
  revert s. induction pre as [|d pre IH]; intros [|c s] H; simpl in *; try reflexivity; try lia.
  rewrite IH by lia. reflexivity.
Qed.

(** Claim C3.  For every string of 12 ASCII digits, [calculate_check_digit]
    returns the digit whose value is [(10 - (S mod 10)) mod 10], [S] being
    the sum of the digits weighted 1, 3, 1, 3, ... from the left.  When the
    string starts with 978 or 979, [validate] accepts it with that digit
    appended, and rejects it with any other digit appended, the error being
    the check-digit mismatch that names the expected and the actual digit. *)
Theorem check_digit_completes_isbn (prefix12 : str) :
  length prefix12 = 12%nat -> forallb is_ascii_digit prefix12 = true ->
  exists c,
    calculate_check_digit prefix12 = Ok [c]
    /\ is_ascii_digit c = true
    /\ digit_value c = (10 - (weighted_sum 1 prefix12 mod 10)) mod 10
    /\ (startswith prefix12 (lit "978") || startswith prefix12 (lit "979") = true ->
        validate (prefix12 ++ [c]) = Ok accepted
        /\ forall c', is_ascii_digit c' = true -> c' <> c ->
             validate (prefix12 ++ [c']) = Ok (checksum_mismatch [c] [c'])).
Proof.
  intros Hlen Hds.
  destruct (str_of_digit (check_digit prefix12)) as (c & Hc & Hcd & Hv).
  { unfold check_digit. apply Z.mod_pos_bound. lia. }
  exists c. rewrite (calculate_check_digit_value _ Hlen Hds), Hc.
  split; [reflexivity|]. split; [assumption|]. split; [assumption|].
  intros Hpre.
  assert (V : forall c', is_ascii_digit c' = true ->
            validate (prefix12 ++ [c'])
            = Ok (if Ascii.eqb c c' then accepted else checksum_mismatch [c] [c'])).
  { intros c' Hc'. unfold validate.
    rewrite extract_digits_id by (rewrite forallb_app, Hds; simpl; now rewrite Hc').
    replace (len (prefix12 ++ [c']) =? 13) with true
      by (unfold len; rewrite length_app, Hlen; reflexivity).
    rewrite !startswith_app by (rewrite Hlen; simpl; lia).
    rewrite Hpre. cbn [negb].
    rewrite (slice_prefix prefix12 [c'] 12 Hlen).
    rewrite (calculate_check_digit_value _ Hlen Hds), Hc. cbn [bind].
    unfold getitem. rewrite nth_error_app2, Hlen by lia.
    cbn [Nat.sub nth_error bind str_eqb]. rewrite andb_true_r.
    now destruct (Ascii.eqb c c'). }
  split.
  - rewrite (V c Hcd). now rewrite Ascii.eqb_refl.
  - intros c' Hc' Hne. rewrite (V c' Hc').
    destruct (Ascii.eqb_spec c c'); [congruence | reflexivity].
Qed.

Lemma check_digit_completes_isbn_witness :
  calculate_check_digit (lit "978756492235") = Ok (lit "1")
  /\ validate (lit "9787564922351") = Ok accepted
  /\ validate (lit "9787564922357") = Ok (checksum_mismatch (lit "1") (lit "7")).
Proof.
  destruct (check_digit_completes_isbn (lit "978756492235") eq_refl eq_refl)
    as (c & Hc & _ & _ & H).
  injection Hc as <-. destruct (H eq_refl) as [Hok Hbad].
  split; [reflexivity|]. split; [exact Hok|].
  apply (Hbad "7"%char); [reflexivity | discriminate].
Defined.

Lemma extract_digits_are_digits (s : str) :
  forallb is_ascii_digit (_extract_digits s) = true.
Proof.
  unfold _extract_digits. induction s as [|c s IH]; simpl; [reflexivity|].
  destruct (is_ascii_digit c) eqn:E; simpl; [now rewrite E|assumption].
Qed.

Lemma extract_digits_idempotent (s : str) :
  _extract_digits (_extract_digits s) = _extract_digits s.
Proof. apply extract_digits_id, extract_digits_are_digits. Qed.

Lemma validate_of_digits (s : str) : validate s = validate (_extract_digits s).
Proof. unfold validate. now rewrite extract_digits_idempotent. Qed.

Lemma validate_total (s : str) : exists r, validate s = Ok r.
Proof.
  unfold validate. set (ds := _extract_digits s).
  destruct (Z.eqb_spec (len ds) 13) as [E|E]; cbn [negb]; [|eauto].
  destruct (startswith ds (lit "978") || startswith ds (lit "979")); cbn [negb]; [|eauto].
  assert (Hlen : length ds = 13%nat) by (unfold len in E; lia).
  assert (Hds : forallb is_ascii_digit ds = true) by apply extract_digits_are_digits.
  rewrite calculate_check_digit_value.
  2:{ unfold slice. rewrite length_firstn, length_skipn. lia. }
  2:{ now apply forallb_slice. }
  cbn [bind]. unfold getitem.
  destruct (nth_error ds 12) as [c|] eqn:Ec.
  2:{ apply nth_error_None in Ec. lia. }
  cbn [bind]. destruct (negb _); eauto.
Qed.

Lemma validate_valid_length (s : str) (r : ValidationResult) :
  validate s = Ok r -> is_valid r = true -> length (_extract_digits s) = 13%nat.
Proof.
  unfold validate.
  destruct (Z.eqb_spec (len (_extract_digits s)) 13) as [E | E]; cbn [negb].
  - intros _ _. unfold len in E. lia.
  - intros [= <-]. discriminate.
Qed.

Lemma parse_total (s : str) :
  exists r parsed,
    validate s = Ok r /\ parse s = Ok parsed
    /\ raw parsed = s /\ digits parsed = _extract_digits s
    /\ parsed_is_valid parsed = is_valid r.
Proof.
  destruct (validate_total s) as [r Hr]. unfold parse. rewrite Hr. cbn [bind].
  exists r. destruct (is_valid r) eqn:Ev; cbn [negb].
  - assert (Hlen := validate_valid_length s r Hr Ev).
    unfold _format_isbn, len. rewrite Hlen. cbn [Z.of_nat Pos.of_succ_nat Z.eqb negb].
    unfold getitem.
    destruct (nth_error (_extract_digits s) 3) eqn:E3.
    2:{ apply nth_error_None in E3. lia. }
    destruct (nth_error (_extract_digits s) 12) eqn:E12.
    2:{ apply nth_error_None in E12. lia. }
    cbn [bind]. eexists. repeat split; reflexivity.
  - eexists. repeat split; reflexivity.
Qed.

(** Claim C10.  [validate] and [parse] read the digits of their input and
    nothing else.  The digits extracted are the characters ['0'] to ['9'] of
    the input; [validate] gives on a string what it gives on its extracted
    digits, and [parse] differs only by the [raw] field.  Both always
    return, [parse] with the extracted digits and the verdict of
    [validate].  Two inputs with the same digits validate alike, so an input
    whose digits are a valid ISBN-13 is accepted however it is hyphenated or
    spaced.  The outcome is the invalid-length one, carrying the number of
    digits, exactly when that number is not 13, whatever the length of the
    raw string. *)
Theorem validate_reads_digits_only (s : str) :
  (forall c, In c (_extract_digits s) <-> In c s /\ is_ascii_digit c = true)
  /\ validate s = validate (_extract_digits s)
  /\ parse s = (parsed <- parse (_extract_digits s) ;; Ok (with_raw s parsed))
  /\ (exists r parsed,
        validate s = Ok r /\ parse s = Ok parsed
        /\ raw parsed = s /\ digits parsed = _extract_digits s
        /\ parsed_is_valid parsed = is_valid r)
  /\ (forall t, _extract_digits t = _extract_digits s -> validate t = validate s)
  /\ (validate (_extract_digits s) = Ok accepted -> validate s = Ok accepted)
  /\ (len (_extract_digits s) <> 13 ->
      validate s = Ok (invalid_length (len (_extract_digits s))))
  /\ (len (_extract_digits s) = 13 ->
      forall n, validate s <> Ok (invalid_length n)).
Proof.
  split; [intros c; apply filter_In|].
  split; [apply validate_of_digits|].
  split.
  { unfold parse. rewrite extract_digits_idempotent, <- validate_of_digits.
    destruct (validate s) as [v|e]; cbn [bind]; [|reflexivity].
    destruct (negb (is_valid v)); cbn [bind]; [reflexivity|].
    destruct (_format_isbn (_extract_digits s)); reflexivity. }
  split; [apply parse_total|].
  split.
  { intros t E. now rewrite (validate_of_digits t), E, <- validate_of_digits. }
  split.
  { intros H. now rewrite validate_of_digits. }
  split.
  { intros H. unfold validate.
    destruct (Z.eqb_spec (len (_extract_digits s)) 13); [contradiction|reflexivity]. }
  intros H n. unfold validate. rewrite H. cbn [Z.eqb Pos.eqb negb].
  destruct (negb _); [discriminate|].
  destruct (calculate_check_digit _); cbn [bind]; [|discriminate].
  destruct (getitem _ _); cbn [bind]; [|discriminate].
  destruct (negb _); discriminate.
Qed.

Example validate_hyphenated :
  validate (lit "978-7-5649-2235-1") = Ok accepted
  /\ validate (lit "ISBN 978 7 5649 2235 1") = Ok accepted
  /\ validate (lit "97-875") = Ok (invalid_length 5).
Proof. repeat split; reflexivity. Qed.

(** ** The add-on encoder *)

Import AddonEncoder.

Lemma addon_L_CODES_table : digit_table AddonEncoder.L_CODES.
Proof. exact L_CODES_table. Qed.

Lemma addon_G_CODES_table : digit_table AddonEncoder.G_CODES.
Proof. exact G_CODES_table. Qed.

Lemma encode_digits_loop (parity whole : str) :
  forall (ds : str) (i : nat) (acc : str),
    (i + length ds = length whole)%nat ->
    (length whole <= length parity)%nat ->
    forallb is_ascii_digit ds = true ->
    for_each
      (fun bars_str '(i, digit) =>
         p <- getitem parity i ;;
         bars_str <-
           (if str_eqb p (lit "L") then
              code <- dict_get str_eqb L_CODES digit ;; Ok (bars_str ++ code)
            else
              code <- dict_get str_eqb G_CODES digit ;; Ok (bars_str ++ code)) ;;
         if Z.of_nat i <? len whole - 1 then Ok (bars_str ++ SEPARATOR)
         else Ok bars_str)
      (enumerate_from i (chars ds)) acc
    = Ok (acc ++ addon_digit_modules (skipn i parity) ds).
Proof.
  induction ds as [|d ds IH]; intros i acc Hi Hpar Hds.
  - simpl. destruct (skipn i parity); now rewrite app_nil_r.
  - cbn [forallb] in Hds. apply andb_true_iff in Hds as [Hd Hds].
    cbn [length] in Hi.
    destruct (nth_error parity i) as [p|] eqn:Hp.
    2:{ apply nth_error_None in Hp. lia. }
    cbn [chars map enumerate_from for_each]. fold (chars ds).
    rewrite (getitem_nth _ _ _ Hp). cbn [bind].
    rewrite (left_code_choice _ _ _ p d addon_L_CODES_table addon_G_CODES_table Hd).
    cbn [bind].
    rewrite (skipn_nth_cons _ _ _ Hp).
    destruct ds as [|d' ds].
    + replace (Z.of_nat i <? len whole - 1) with false
        by (symmetry; apply Z.ltb_ge; unfold len; simpl in Hi; lia).
      reflexivity.
    + replace (Z.of_nat i <? len whole - 1) with true
        by (symmetry; apply Z.ltb_lt; unfold len; simpl in Hi; lia).
      cbn [bind]. rewrite IH by (auto; simpl in *; lia).
      cbn [addon_digit_modules]. now rewrite <- !app_assoc.
Qed.

Lemma addon_digit_modules_shape :
  forall (parity ds : str),
    ds <> [] -> (length ds <= length parity)%nat ->
    forallb is_ascii_digit ds = true ->
    (length (addon_digit_modules parity ds) + 2 = 9 * length ds)%nat
    /\ forallb is_bit (addon_digit_modules parity ds) = true.
Proof.
  induction parity as [|p parity IH]; intros [|d ds] Hne Hlen Hds;
    try congruence; simpl in Hlen; try lia.
  cbn [forallb] in Hds. apply andb_true_iff in Hds as [Hd Hds].
  destruct (left_table_digit_table _ _ p addon_L_CODES_table addon_G_CODES_table d Hd)
    as (_ & H7 & Hb & _).
  destruct ds as [|d' ds].
  - cbn [addon_digit_modules]. rewrite H7, Hb. split; reflexivity.
  - destruct (IH (d' :: ds) ltac:(discriminate) ltac:(lia) Hds) as [IHl IHb].
    cbn [addon_digit_modules] in *.
    rewrite !length_app, !forallb_app, H7, Hb, IHb.
    split; [simpl in *; lia | reflexivity].
Qed.

Lemma addon_modules_shape (parity digits : str) :
  digits <> [] -> length parity = length digits ->
  forallb is_ascii_digit digits = true ->
  forallb is_bit (START_GUARD ++ addon_digit_modules parity digits) = true
  /\ len (START_GUARD ++ addon_digit_modules parity digits) = 9 * len digits + 2.
Proof.
  intros Hne Hlen Hds.
  destruct (addon_digit_modules_shape parity digits Hne ltac:(lia) Hds) as [Hl Hb].
  split.
  - rewrite forallb_app, Hb. reflexivity.
  - unfold len. rewrite length_app.
    replace (length START_GUARD) with 4%nat by reflexivity. lia.
Qed.

Lemma EAN2_PARITY_entry (v : Z) :
  0 <= v < 4 ->
  exists parity, dict_get Z.eqb EAN2_PARITY v = Ok parity /\ length parity = 2%nat.
Proof.
  intros H. assert (E : v = 0 \/ v = 1 \/ v = 2 \/ v = 3) by lia.
  destruct E as [E | [E | [E | E]]]; subst v; eexists; split; reflexivity.
Qed.

Lemma EAN5_PARITY_entry (v : Z) :
  0 <= v < 10 ->
  exists parity, dict_get Z.eqb EAN5_PARITY v = Ok parity /\ length parity = 5%nat.
Proof.
  intros H.
  assert (E : v = 0 \/ v = 1 \/ v = 2 \/ v = 3 \/ v = 4 \/ v = 5 \/ v = 6
              \/ v = 7 \/ v = 8 \/ v = 9) by lia.
  repeat (destruct E as [E | E]; [subst v; eexists; split; reflexivity|]).
  subst v; eexists; split; reflexivity.
Qed.

Lemma calculate_checksum_2_value (digits : str) :
  length digits = 2%nat -> forallb is_ascii_digit digits = true ->
  _calculate_checksum_2 digits = Ok (addon2_checksum digits).
Proof.
  intros Hlen Hds.
  destruct digits as [|d0 [|d1 [|? ?]]]; try discriminate Hlen.
  cbn [forallb] in Hds. apply andb_true_iff in Hds as [H0 Hds].
  apply andb_true_iff in Hds as [H1 _].
  unfold _calculate_checksum_2, int_of_str. cbn [for_each]. rewrite H0. cbn [bind].
  rewrite H1. cbn [bind]. unfold addon2_checksum, digit_at. cbn [nth].
  do 2 f_equal; try ring.
Qed.

Lemma calculate_checksum_5_value (digits : str) :
  length digits = 5%nat -> forallb is_ascii_digit digits = true ->
  _calculate_checksum_5 digits = Ok (addon5_checksum digits).
Proof.
  intros Hlen Hds.
  destruct digits as [|d0 [|d1 [|d2 [|d3 [|d4 [|? ?]]]]]]; try discriminate Hlen.
  cbn [forallb] in Hds.
  repeat (let H := fresh "Hd" in apply andb_true_iff in Hds as [H Hds]).
  unfold _calculate_checksum_5, enumerate.
  cbn [chars map enumerate_from for_each].
  rewrite !int_of_digit by assumption. cbn.
  unfold addon5_checksum, digit_at. cbn [nth]. do 2 f_equal; try ring.
Qed.

Lemma addon_pattern_built (table : list (Z * str)) (checksum : Z) (digits parity : str) :
  digits <> [] -> forallb is_ascii_digit digits = true ->
  dict_get Z.eqb table checksum = Ok parity -> length parity = length digits ->
  exists p,
    (bars_str <-
       for_each
         (fun bars_str '(i, digit) =>
            p <- getitem parity i ;;
            bars_str <-
              (if str_eqb p (lit "L") then
                 code <- dict_get str_eqb L_CODES digit ;; Ok (bars_str ++ code)
               else
                 code <- dict_get str_eqb G_CODES digit ;; Ok (bars_str ++ code)) ;;
            if Z.of_nat i <? len digits - 1 then Ok (bars_str ++ SEPARATOR)
            else Ok bars_str)
         (enumerate (chars digits)) (lit "" ++ START_GUARD) ;;
     bars <- comprehension int_of_str (chars bars_str) ;;
     Ok {| bars := bars;
           module_count := len bars;
           guard_positions := [] ++ [0; 1; 2; 3] |}) = Ok p
    /\ addon_pattern_ok table checksum (9 * len digits + 2) digits p.
Proof.
  intros Hne Hds Hpar Hlen. unfold enumerate.
  rewrite (encode_digits_loop parity digits digits 0) by (auto; lia).
  destruct (addon_modules_shape parity digits Hne Hlen Hds) as (Hb & Hl).
  cbn [bind skipn lit list_ascii_of_string app] in *.
  rewrite (bars_of_modules _ Hb). cbn [bind].
  eexists. split; [reflexivity|].
  exists parity. cbn [bars module_count guard_positions].
  assert (Hl' : len (map bit_value (START_GUARD ++ addon_digit_modules parity digits))
                = 9 * len digits + 2).
  { rewrite <- Hl. unfold len. now rewrite length_map. }
  repeat split; auto.
Qed.

(** Claim C4.  For every string of 2 ASCII digits [encode_2] returns a
    pattern of exactly 20 modules, and for every string of 5 ASCII digits
    [encode_5] one of exactly 47 modules.  Both begin [1,0,1,1] and have
    the guard positions 0, 1, 2, 3 and no other.  After the start guard
    comes the seven-module code of each digit, L or G as the parity string
    says, which is the entry of [EAN2_PARITY] at the two-digit number modulo
    4, or the entry of [EAN5_PARITY] at three times the digits at the odd
    positions (counted from 1) plus nine times those at the even positions,
    modulo 10; and between two digits, never after the last, the separator
    [0,1]. *)
Theorem addon_patterns (digits2 digits5 : str) :
  length digits2 = 2%nat -> forallb is_ascii_digit digits2 = true ->
  length digits5 = 5%nat -> forallb is_ascii_digit digits5 = true ->
  (exists p, encode_2 digits2 = Ok p
             /\ addon_pattern_ok EAN2_PARITY (addon2_checksum digits2) 20 digits2 p)
  /\ (exists p, encode_5 digits5 = Ok p
              /\ addon_pattern_ok EAN5_PARITY (addon5_checksum digits5) 47 digits5 p).
Proof.
  intros Hlen2 Hds2 Hlen5 Hds5. split.
  - unfold encode_2.
    replace (len digits2 =? 2) with true by (unfold len; rewrite Hlen2; reflexivity).
    rewrite (ascii_digits_isdigit digits2) by (auto; destruct digits2; discriminate).
    cbn [negb]. rewrite (calculate_checksum_2_value _ Hlen2 Hds2). cbn [bind].
    destruct (EAN2_PARITY_entry (addon2_checksum digits2)) as (parity & Hpar & Hl).
    { apply Z.mod_pos_bound. lia. }
    rewrite Hpar. cbn [bind].
    replace 20 with (9 * len digits2 + 2) by (unfold len; rewrite Hlen2; reflexivity).
    apply addon_pattern_built; auto; try congruence.
    destruct digits2; discriminate.
  - unfold encode_5.
    replace (len digits5 =? 5) with true by (unfold len; rewrite Hlen5; reflexivity).
    rewrite (ascii_digits_isdigit digits5) by (auto; destruct digits5; discriminate).
    cbn [negb]. rewrite (calculate_checksum_5_value _ Hlen5 Hds5). cbn [bind].
    destruct (EAN5_PARITY_entry (addon5_checksum digits5)) as (parity & Hpar & Hl).
    { apply Z.mod_pos_bound. lia. }
    rewrite Hpar. cbn [bind].
    replace 47 with (9 * len digits5 + 2) by (unfold len; rewrite Hlen5; reflexivity).
    apply addon_pattern_built; auto; try congruence.
    destruct digits5; discriminate.
Qed.

Lemma addon_patterns_witness :
  (exists p, encode_2 (lit "12") = Ok p
             /\ addon_pattern_ok EAN2_PARITY (addon2_checksum (lit "12")) 20 (lit "12") p)
  /\ (exists p, encode_5 (lit "52495") = Ok p
              /\ addon_pattern_ok EAN5_PARITY (addon5_checksum (lit "52495")) 47
                   (lit "52495") p).
Proof. apply (addon_patterns (lit "12") (lit "52495")); reflexivity. Defined.

Example encode_2_of_12 :
  option_map bars (match encode_2 (lit "12") with Ok p => Some p | Raise _ => None end)
  = Some [1;0;1;1; 0;0;1;1;0;0;1; 0;1; 0;0;1;0;0;1;1].
Proof. reflexivity. Qed.

(** ** Floats *)

Lemma truncation_of_integer (v : Z) : truncation_of (inject_Z v) v.
Proof.
  unfold truncation_of. split; intros _; split; unfold Qle, Qlt; cbn; lia.
Qed.

Lemma to_int_truncates (x : F64.float) :
  F64.is_finite x = true ->
  exists t, F64.to_int x = Ok t /\ truncation_of (float_value x) t.
Proof.
  destruct x as [s | s | | s m e]; intros H; try discriminate H.
  - exists 0. split; [reflexivity|]. apply (truncation_of_integer 0).
  - cbn [F64.to_int]. eexists. split; [reflexivity|].
    destruct e as [|p|p].
    + cbn [float_value]. rewrite Z.shiftl_0_r, Z.pow_0_r, Z.mul_1_r.
      apply truncation_of_integer.
    + cbn [float_value]. rewrite Z.shiftl_mul_pow2 by lia.
      replace (cond_Zopp s (Z.pos m) * 2 ^ Z.pos p)
        with (cond_Zopp s (Z.pos m * 2 ^ Z.pos p)) by (destruct s; cbn [cond_Zopp]; ring).
      apply truncation_of_integer.
    + cbn [float_value]. rewrite Z.shiftl_div_pow2 by lia. cbn [Z.opp].
      rewrite <- Pos2Z.inj_pow.
      set (d := (2 ^ p)%positive).
      unfold truncation_of.
      destruct s; cbn [cond_Zopp]; split; intros Hs; split;
        unfold Qle, Qlt in *; cbn in *; rewrite ?Pos.mul_1_r in *;
        pose proof (Z.div_mod (Z.pos m) (Z.pos d) ltac:(lia)) as Hd;
        pose proof (Z.mod_pos_bound (Z.pos m) (Z.pos d) ltac:(lia)) as Hr;
        revert Hd Hr;
        generalize (Z.pos m / Z.pos d) (Z.pos m mod Z.pos d); intros q r Hd Hr;
        nia.
Qed.

Lemma to_int_ok_finite (x : F64.float) (t : Z) :
  F64.to_int x = Ok t -> F64.is_finite x = true.
Proof. destruct x; intros H; try discriminate H; reflexivity. Qed.

Lemma truncation_above (q : Q) (t : Z) :
  truncation_of q t -> (inject_Z t - 1 < q)%Q.
Proof.
  intros [Hpos Hneg]. destruct (Qlt_le_dec q 0) as [H | H].
  - apply Hneg. now apply Qlt_le_weak.
  - destruct (Hpos H) as [Hle _]. eapply Qlt_le_trans; [|exact Hle].
    unfold Qlt. cbn. lia.
Qed.

(** ** The renderer *)

Import TIFRenderer.

Lemma mm_to_px_of_quotient (mm : F64.float) (dpi : Z) :
  _mm_to_px mm dpi = (q <- mm_dpi_quotient mm dpi ;; F64.to_int q).
Proof.
  unfold _mm_to_px, mm_dpi_quotient.
  destruct (F64.float_mul_int mm dpi); reflexivity.
Qed.

(** Claim C6 as the specification states it does not hold: at 0.5 mm and
    300 dpi the quotient is 5.9055..., which rounds to 6, and
    [_mm_to_px] returns 5. *)
Lemma mm_to_px_not_rounded :
  _mm_to_px (F64.decimal 5 10) 300 = Ok 5
  /\ (exists q, mm_dpi_quotient (F64.decimal 5 10) 300 = Ok q
                /\ round_half_even (float_value q) = 6)
  /\ ~ mm_to_px_rounds (F64.decimal 5 10) 300.
Proof.
  split; [reflexivity|]. split.
  - eexists. split; reflexivity.
  - intros (q & Hq & H). vm_compute in Hq. injection Hq as <-.
    vm_compute in H. discriminate H.
Qed.

(** Claim C6, amended.  For every millimetre value and dpi whose float
    quotient [mm * dpi / 25.4] is finite, [_mm_to_px] returns that quotient
    truncated toward zero: the integer [t] with [t <= q < t + 1] when [q] is
    not negative, and [t - 1 < q <= t] when it is not positive. *)
Theorem mm_to_px_truncates (mm : F64.float) (dpi : Z) (q : F64.float) :
  mm_dpi_quotient mm dpi = Ok q -> F64.is_finite q = true ->
  exists t, _mm_to_px mm dpi = Ok t /\ truncation_of (float_value q) t.
Proof.
  intros Hq Hfin. rewrite mm_to_px_of_quotient, Hq. cbn [bind].
  now apply to_int_truncates.
Qed.

Lemma mm_to_px_truncates_witness :
  exists t,
    _mm_to_px (F64.decimal 5 10) 300 = Ok t
    /\ truncation_of (float_value (S754_finite false 6649015197889512 (-50))) t.
Proof.
  apply (mm_to_px_truncates (F64.decimal 5 10) 300
           (S754_finite false 6649015197889512 (-50))); reflexivity.
Defined.


(** Claim C9.  Let [left] be [int(11 * module_width)].  With an add-on
    pattern the left edge of the main symbol, [area.x], is [left] exactly.
    Without one it is [left] minus [int(0.5 * dpi / 25.4)], the pixels of
    half a millimetre; so whenever that number of pixels is positive, the
    left edge lies strictly left of [11 * module_width]: the left quiet zone
    is narrower than 11 modules. *)
Theorem barcode_left_edge (config : RenderConfig) (width_px height_px : Z)
        (module_width_px q11 : F64.float) (left width : Z) :
  F64.int_mul_float LEFT_QUIET_ZONE_MODULES module_width_px = Ok q11 ->
  F64.to_int q11 = Ok left ->
  int_of_product EAN13_MODULES module_width_px = Ok width ->
  (addon_pattern config <> None ->
   exists area,
     _calculate_barcode_area config width_px height_px module_width_px = Ok area
     /\ area_x area = left)
  /\ (addon_pattern config = None ->
      forall shift, _mm_to_px (F64.decimal 5 10) (dpi config) = Ok shift ->
      exists area,
        _calculate_barcode_area config width_px height_px module_width_px = Ok area
        /\ area_x area = left - shift
        /\ (0 < shift -> (inject_Z (area_x area) < float_value q11)%Q)).
Proof.
  intros Hq Hleft Hwidth. unfold int_of_product in Hwidth.
  unfold _calculate_barcode_area. rewrite Hq. cbn [bind]. rewrite Hleft. cbn [bind].
  split.
  - intros Haddon. destruct (addon_pattern config); [|congruence]. cbn [bind].
    destruct (F64.int_mul_float EAN13_MODULES module_width_px) as [q95|]; [|discriminate].
    cbn [bind] in *. rewrite Hwidth. cbn [bind]. eexists. split; reflexivity.
  - intros Haddon shift Hshift. rewrite Haddon, Hshift. cbn [bind].
    destruct (F64.int_mul_float EAN13_MODULES module_width_px) as [q95|]; [|discriminate].
    cbn [bind] in *. rewrite Hwidth. cbn [bind]. eexists. split; [reflexivity|].
    cbn [area_x]. split; [reflexivity|]. intros Hpos.
    destruct (to_int_truncates q11 (to_int_ok_finite _ _ Hleft)) as (t & Ht & Htr).
    rewrite Hleft in Ht. injection Ht as <-.
    eapply Qle_lt_trans; [|exact (truncation_above _ _ Htr)].
    unfold Qle. cbn. lia.
Qed.

Lemma barcode_left_edge_witness :
  exists area,
    _calculate_barcode_area sample_config 440 306
      (S754_finite false 8768070070986806 (-51)) = Ok area
    /\ area_x area = 42 - 5
    /\ (0 < 5 -> (inject_Z (area_x area)
                  < float_value (S754_finite false 6028048173803429 (-47)))%Q).
Proof.
  destruct (barcode_left_edge sample_config 440 306
              (S754_finite false 8768070070986806 (-51))
              (S754_finite false 6028048173803429 (-47)) 42 369
              eq_refl eq_refl eq_refl) as [_ H].
  exact (H eq_refl 5 eq_refl).
Defined.

Lemma calculate_image_size_blocks (config : RenderConfig) :
  _calculate_image_size config
  = (' (default_width_px, default_height_px) <- default_size_px config ;;
     w_req <- requested_px (width_px config) (width_mm config) (dpi config) ;;
     h_req <- requested_px (height_px config) (height_mm config) (dpi config) ;;
     resolved_size (lock_aspect_ratio config) default_width_px default_height_px
       w_req h_req).
Proof.
  unfold _calculate_image_size, default_size_px, requested_px, resolved_size,
    int_of_quotient, int_of_product.
  destruct (_mm_to_px STANDARD_TOTAL_WIDTH_MM (dpi config)) as [dw|];
    [|reflexivity].
  destruct (_mm_to_px STANDARD_TOTAL_HEIGHT_MM (dpi config)) as [dh|];
    [|reflexivity].
  cbn [bind].
  assert (Hrest : forall (A : Type) (r : result A) (f g : A -> result (Z * Z)),
             (forall a, f a = g a) -> bind r f = bind r g).
  { intros A r f g H. destruct r; [apply H | reflexivity]. }
  destruct (addon_pattern config) as [addon|].
  1: destruct (F64.int_mul_float _ _) as [mm|]; [|reflexivity]; cbn [bind];
     destruct (_mm_to_px mm (dpi config)) as [extra|]; [|reflexivity].
  all: cbn [bind];
    apply Hrest; intros w_req; apply Hrest; intros h_req;
    destruct (lock_aspect_ratio config); [|reflexivity];
    apply Hrest; intros ratio;
    destruct w_req as [w|], h_req as [h|]; try reflexivity.
  - destruct (F64.int_div_float w ratio); reflexivity.
  - destruct (F64.int_mul_float h ratio); reflexivity.
  - destruct (F64.int_div_float w ratio); reflexivity.
  - destruct (F64.int_mul_float h ratio); reflexivity.
Qed.

(** Claim C5.  The size [_calculate_image_size] resolves.  On each axis a
    pixel value is taken before the millimetre value, which is converted
    with [_mm_to_px].  With the aspect-ratio lock set and one axis
    requested, the other is the integer part of the requested one divided
    (for the height) or multiplied (for the width) by the ratio of the
    default width to the default height; with no axis requested the size is
    the default one; with both, the two requested values.  With the lock
    unset each axis not requested falls back, by itself, on its default; in
    particular two pixel values come back exactly. *)
Theorem image_size_resolution (config : RenderConfig) (dw dh : Z)
        (w_req h_req : option Z) :
  default_size_px config = Ok (dw, dh) ->
  requested_px (width_px config) (width_mm config) (dpi config) = Ok w_req ->
  requested_px (height_px config) (height_mm config) (dpi config) = Ok h_req ->
  (* a pixel value wins over the millimetre value of its axis *)
  (forall v, width_px config = Some v -> w_req = Some v)
  /\ (forall v, height_px config = Some v -> h_req = Some v)
  /\ (forall m, width_px config = None -> width_mm config = Some m ->
       exists v, _mm_to_px m (dpi config) = Ok v /\ w_req = Some v)
  /\ (forall m, height_px config = None -> height_mm config = Some m ->
       exists v, _mm_to_px m (dpi config) = Ok v /\ h_req = Some v)
  /\ (width_px config = None -> width_mm config = None -> w_req = None)
  /\ (height_px config = None -> height_mm config = None -> h_req = None)
  (* the lock set: one axis given, the other from the default ratio *)
  /\ (lock_aspect_ratio config = true ->
      forall ratio, F64.int_truediv dw dh = Ok ratio ->
        (forall w h, w_req = Some w -> h_req = None ->
           int_of_quotient w ratio = Ok h ->
           _calculate_image_size config = Ok (w, h))
        /\ (forall w h, w_req = None -> h_req = Some h ->
             int_of_product h ratio = Ok w ->
             _calculate_image_size config = Ok (w, h))
        /\ (w_req = None -> h_req = None ->
            _calculate_image_size config = Ok (dw, dh))
        /\ (forall w h, w_req = Some w -> h_req = Some h ->
             _calculate_image_size config = Ok (w, h)))
  (* the lock unset: each missing axis falls back on its own *)
  /\ (lock_aspect_ratio config = false ->
      _calculate_image_size config
      = Ok (match w_req with Some w => w | None => dw end,
            match h_req with Some h => h | None => dh end))
  /\ (lock_aspect_ratio config = false ->
      forall w h, width_px config = Some w -> height_px config = Some h ->
        _calculate_image_size config = Ok (w, h)).
Proof.
  intros Hdef Hw Hh.
  assert (Pw : forall v, width_px config = Some v -> w_req = Some v).
  { intros v E. rewrite E in Hw. cbn in Hw. congruence. }
  assert (Ph : forall v, height_px config = Some v -> h_req = Some v).
  { intros v E. rewrite E in Hh. cbn in Hh. congruence. }
  split; [exact Pw|]. split; [exact Ph|].
  split.
  { intros m E1 E2. rewrite E1, E2 in Hw. cbn [requested_px] in Hw.
    destruct (_mm_to_px m (dpi config)) as [v|]; [|discriminate].
    cbn in Hw. exists v. split; congruence. }
  split.
  { intros m E1 E2. rewrite E1, E2 in Hh. cbn [requested_px] in Hh.
    destruct (_mm_to_px m (dpi config)) as [v|]; [|discriminate].
    cbn in Hh. exists v. split; congruence. }
  split.
  { intros E1 E2. rewrite E1, E2 in Hw. cbn in Hw. congruence. }
  split.
  { intros E1 E2. rewrite E1, E2 in Hh. cbn in Hh. congruence. }
  rewrite calculate_image_size_blocks, Hdef, Hw, Hh. cbn [bind].
  unfold resolved_size.
  split.
  { intros Hlock ratio Hratio. rewrite Hlock, Hratio. cbn [bind].
    repeat split.
    - intros w h -> -> H. now rewrite H.
    - intros w h -> -> H. now rewrite H.
    - now intros -> ->.
    - now intros w h -> ->. }
  split.
  { intros Hlock. now rewrite Hlock. }
  intros Hlock w h E1 E2. rewrite Hlock, (Pw w E1), (Ph h E2). reflexivity.
Qed.

Lemma image_size_resolution_witness :
  _calculate_image_size
    (with_size sample_config (Some (F64.decimal 40 1)) None (Some 500) (Some 300) false)
  = Ok (500, 300).
Proof.
  pose proof (image_size_resolution
                (with_size sample_config (Some (F64.decimal 40 1)) None
                   (Some 500) (Some 300) false)
                440 306 (Some 500) (Some 300) eq_refl eq_refl eq_refl) as H.
  apply H; reflexivity.
Defined.

Example image_size_locked_width :
  _calculate_image_size (with_size sample_config None None (Some 880) None true)
  = Ok (880, 612).
Proof. vm_compute. reflexivity. Qed.

Lemma draw_barcode_loop (pattern : BarcodePattern) (area : Area)
      (module_width_px : F64.float) (fill : color_value) (ext : Z) :
  int_of_product (area_height area) (F64.decimal 1 10) = Ok ext ->
  is_ok (F64.to_int module_width_px) = true ->
  forall (bs : list Z) (i : nat) (draw : list Rectangle),
    forallb (fun i => is_ok (int_of_product (Z.of_nat i) module_width_px))
            (seq i (length bs)) = true ->
    for_each
      (fun draw '(i, bar) =>
         let bar_width := module_width_px in
         p <- F64.int_mul_float (Z.of_nat i) module_width_px ;;
         t <- F64.to_int p ;;
         let bar_x := area_x area + t in
         if bar =? 1 then
           let bar_height :=
             if int_in (Z.of_nat i) (guard_positions pattern)
             then area_height area + ext else area_height area in
           w <- F64.to_int bar_width ;;
           Ok (draw ++ [{| x0 := bar_x; y0 := area_y area;
                           x1 := bar_x + w; y1 := area_y area + bar_height;
                           fill := fill |}])
         else Ok draw)
      (enumerate_from i bs) draw
    = Ok (draw ++ map (bar_rectangle pattern area module_width_px fill) (dark_from i bs)).
Proof.
  intros Hext Hw.
  destruct (F64.to_int module_width_px) as [w|] eqn:Ew; [|discriminate]. clear Hw.
  match goal with
  | |- forall bs i draw, _ -> for_each ?f _ _ = _ => set (body := f)
  end.
  induction bs as [|b bs IH]; intros i draw Hall.
  - cbn. now rewrite app_nil_r.
  - cbn [length seq forallb] in Hall. apply andb_true_iff in Hall as [Hi Hall].
    cbn [enumerate_from for_each].
    unfold dark_from. cbn [enumerate_from filter snd]. fold (dark_from (S i) bs).
    unfold body at 1. cbv beta iota.
    unfold int_of_product in Hi.
    destruct (F64.int_mul_float (Z.of_nat i) module_width_px) as [p|] eqn:Ep;
      [|discriminate].
    cbn [bind] in *.
    destruct (F64.to_int p) as [t|] eqn:Et; [|discriminate].
    cbn [bind].
    destruct (b =? 1); cbn [bind map fst]; rewrite ?Ew; cbn [bind];
      rewrite IH by assumption; [|reflexivity].
    rewrite <- app_assoc. cbn [app].
    do 3 f_equal. unfold bar_rectangle. rewrite Hext. unfold int_of_product.
    rewrite Ep, Ew. cbn [bind]. rewrite Et. cbn [value_of].
    destruct (int_in _ _); f_equal; ring.
Qed.

Lemma dark_from_spec (bs : list Z) :
  forall (i k : nat),
    In k (dark_from i bs) <-> (i <= k)%nat /\ nth_error bs (k - i) = Some 1.
Proof.
  induction bs as [|b bs IH]; intros i k.
  - cbn. split; [tauto|]. intros [_ H]. now destruct (k - i)%nat.
  - unfold dark_from. cbn [enumerate_from filter snd].
    destruct (Z.eqb_spec b 1) as [-> | Hb]; cbn [map fst In]; fold (dark_from (S i) bs);
      rewrite IH.
    + split.
      * intros [<- | [Hle H]].
        -- rewrite Nat.sub_diag. split; [lia | reflexivity].
        -- split; [lia|]. replace (k - i)%nat with (S (k - S i)) by lia. exact H.
      * intros [Hle H]. destruct (Nat.eq_dec i k) as [E | E]; [now left | right].
        split; [lia|]. replace (k - i)%nat with (S (k - S i)) in H by lia. exact H.
    + split.
      * intros [Hle H]. split; [lia|].
        replace (k - i)%nat with (S (k - S i)) by lia. exact H.
      * intros [Hle H]. destruct (Nat.eq_dec i k) as [E | E].
        -- subst k. rewrite Nat.sub_diag in H. cbn in H. congruence.
        -- split; [lia|]. replace (k - i)%nat with (S (k - S i)) in H by lia. exact H.
Qed.

(** Claim C7, amended.  [_draw_barcode] draws one rectangle for each dark
    module, in the order of the modules, and nothing else.  The rectangle of
    the dark module [i] starts at [area.x + int(i * module_width)], the
    product truncated and not rounded, and ends [int(module_width)] further
    right; it runs from the top of the band, [area.y], to its bottom,
    [area.y + area.height], and [int(area.height * 0.1)] further down, the
    top unchanged, exactly when [i] is a guard position. *)
Theorem draw_barcode_rectangles (pattern : BarcodePattern) (config : RenderConfig)
        (area : Area) (module_width_px : F64.float) (fill : color_value)
        (draw : list Rectangle) :
  _convert_color (foreground_color config) (color_mode config) = Ok fill ->
  is_ok (int_of_product (area_height area) (F64.decimal 1 10)) = true ->
  is_ok (F64.to_int module_width_px) = true ->
  forallb (fun i => is_ok (int_of_product (Z.of_nat i) module_width_px))
          (seq 0 (length (bars pattern))) = true ->
  _draw_barcode draw pattern config area module_width_px
  = Ok (draw ++ map (bar_rectangle pattern area module_width_px fill)
                    (dark_modules (bars pattern)))
  /\ (forall i, In i (dark_modules (bars pattern))
                <-> nth_error (bars pattern) i = Some 1).
Proof.
  intros Hfill Hext Hw Hall. split.
  - unfold _draw_barcode. rewrite Hfill. cbn [bind].
    destruct (int_of_product (area_height area) (F64.decimal 1 10)) as [ext|] eqn:Eext;
      [|discriminate].
    assert (Eext' := Eext). unfold int_of_product in Eext'.
    destruct (F64.int_mul_float (area_height area) (F64.decimal 1 10)) as [h|];
      [|discriminate].
    cbn [bind] in *. rewrite Eext'. cbn [bind].
    unfold enumerate, dark_modules.
    now apply (draw_barcode_loop pattern area module_width_px fill ext).
  - intros i. unfold dark_modules. rewrite dark_from_spec, Nat.sub_0_r.
    split; [tauto | intros H; split; [lia | exact H]].
Qed.

Lemma draw_barcode_rectangles_witness :
  _draw_barcode [] sample_pattern sample_config sample_area sample_module_width
  = Ok ([] ++ map (bar_rectangle sample_pattern sample_area sample_module_width (Level 0))
                  (dark_modules (bars sample_pattern)))
  /\ (forall i, In i (dark_modules (bars sample_pattern))
                <-> nth_error (bars sample_pattern) i = Some 1).
Proof.
  apply (draw_barcode_rectangles sample_pattern sample_config sample_area
           sample_module_width (Level 0) []); vm_compute; reflexivity.
Defined.

Example sample_first_bars :
  firstn 2 (map (bar_rectangle sample_pattern sample_area sample_module_width (Level 0))
                (dark_modules (bars sample_pattern)))
  = [ {| x0 := 37; y0 := 20; x1 := 40; y1 := 315; fill := Level 0 |};
      {| x0 := 44; y0 := 20; x1 := 47; y1 := 315; fill := Level 0 |} ]
  /\ nth_error (map (bar_rectangle sample_pattern sample_area sample_module_width (Level 0))
                    (dark_modules (bars sample_pattern))) 2
     = Some {| x0 := 52; y0 := 20; x1 := 55; y1 := 289; fill := Level 0 |}.
Proof. vm_compute. split; reflexivity. Qed.

(** Claim C7 as the specification states it does not hold.  For the sample
    at its default size the area starts at x = 37 and y = 20, the band is
    269 pixels high and a module 3.89... pixels wide.  The dark module 2
    lies at [2 * module_width] = 7.78..., which rounds to 8: its rectangle
    starts at 37 + 7, and no rectangle starts at 37 + 8.  It is a guard
    bar: it is 3 pixels wide, starts at the top of the band and ends 26
    pixels, [int(26.9)], below its bottom. *)
Lemma bars_not_drawn_as_stated :
  (exists drawn,
     _draw_barcode [] sample_pattern sample_config sample_area sample_module_width
     = Ok drawn
     /\ nth_error drawn 1
        = Some {| x0 := 37 + 7; y0 := 20; x1 := 37 + 7 + 3; y1 := 20 + 269 + 26;
                  fill := Level 0 |}
     /\ forall r, In r drawn -> x0 r <> 37 + 8)
  /\ ~ bars_drawn_as_stated sample_pattern sample_config sample_area sample_module_width.
Proof.
  assert (Hnone : forall drawn,
             _draw_barcode [] sample_pattern sample_config sample_area
               sample_module_width = Ok drawn ->
             forall r, In r drawn -> x0 r <> 37 + 8).
  { intros drawn Hdrawn r Hin Hx.
    vm_compute in Hdrawn. injection Hdrawn as <-.
    repeat (destruct Hin as [<- | Hin]; [discriminate Hx|]).
    exact Hin. }
  split.
  - eexists. split; [vm_compute; reflexivity|].
    split; [reflexivity|]. apply Hnone. vm_compute. reflexivity.
  - intros (drawn & Hdrawn & Hall).
    destruct (Hall 2%nat eq_refl) as (q & r & Hq & Hin & Hx & _).
    vm_compute in Hq. injection Hq as <-.
    apply (Hnone drawn Hdrawn r Hin). rewrite Hx. reflexivity.
Qed.

(** ** The template manager *)

Import TemplateManager.

Lemma dict_set_fresh (d : dict) (key : str) (value : pyval) :
  ~ In key (map fst d) -> dict_set d key value = d ++ [(key, value)].
Proof.
  induction d as [|[k v] d IH]; intros H; cbn [dict_set app]; [reflexivity|].
  cbn [map fst In] in H.
  destruct (str_eqb k key) eqn:E.
  - apply str_eqb_eq in E. tauto.
  - rewrite IH by tauto. reflexivity.
Qed.

(** A loop that stores one value per item of a dict rebuilds the dict,
    item by item, in the same order. *)
Lemma store_each_item (f : str -> pyval -> pyval) (body : dict -> str * pyval -> dict) :
  (forall result key value, body result (key, value) = dict_set result key (f key value)) ->
  forall (config acc : dict),
    NoDup (map fst acc ++ map fst config) ->
    fold_left body config acc
    = acc ++ map (fun item => (fst item, f (fst item) (snd item))) config.
Proof.
  intros Hbody. induction config as [|[k v] config IH]; intros acc Hnd; cbn [fold_left map].
  - now rewrite app_nil_r.
  - rewrite Hbody, dict_set_fresh.
    2:{ cbn [map fst] in Hnd. apply NoDup_remove_2 in Hnd.
        intros Hin. apply Hnd. apply in_or_app. now left. }
    rewrite IH.
    + now rewrite <- app_assoc.
    + rewrite map_app. cbn [map fst app]. rewrite <- app_assoc. exact Hnd.
Qed.

Lemma serialize_config_items (config : dict) :
  NoDup (map fst config) ->
  _serialize_config config
  = map (fun item => (fst item, serialized_value (snd item))) config.
Proof.
  intros Hnd. unfold _serialize_config.
  rewrite (store_each_item (fun _ v => serialized_value v)); [reflexivity | | exact Hnd].
  intros result key value. unfold serialized_value.
  destruct value; try reflexivity.
  cbn [getattr].
  destruct (attr_lookup attrs (lit "value")); [reflexivity|].
  destruct (attr_lookup attrs (lit "name")); reflexivity.
Qed.

Lemma deserialize_config_items (config : dict) :
  NoDup (map fst config) ->
  _deserialize_config config
  = map (fun item => (fst item, deserialized_value (fst item) (snd item))) config.
Proof.
  intros Hnd. unfold _deserialize_config.
  rewrite (store_each_item deserialized_value); [reflexivity | | exact Hnd].
  intros result key value. unfold deserialized_value.
  destruct value; try reflexivity.
  destruct (is_color_key key); reflexivity.
Qed.

Lemma field_round_trip (item : str * pyval) :
  config_field_ok item = true ->
  deserialized_value (fst item) (serialized_value (snd item)) = snd item.
Proof.
  destruct item as [key value]. unfold config_field_ok, field_kind_of. cbn [fst snd].
  destruct (is_color_key key) eqn:Ecolor.
  - destruct value; cbn [has_kind]; try discriminate. intros _.
    cbn [serialized_value deserialized_value]. now rewrite Ecolor.
  - repeat match goal with
           | |- context [if ?c then _ else _] => destruct c
           end;
      destruct value; cbn [has_kind]; intros H; try discriminate H; reflexivity.
Qed.

Lemma distinct_keys_NoDup (keys : list str) :
  distinct_keys keys = true -> NoDup keys.
Proof.
  induction keys as [|key rest IH]; cbn [distinct_keys]; intros H; constructor.
  - apply andb_true_iff in H as [H _]. intros Hin.
    apply negb_true_iff in H.
    assert (E : existsb (str_eqb key) rest = true).
    { apply existsb_exists. exists key. split; [exact Hin | apply str_eqb_refl]. }
    congruence.
  - apply andb_true_iff in H as [_ H]. now apply IH.
Qed.

(** Claim C8.  For every render-configuration document, deserializing
    its serialized form gives the document back: the same keys in the same
    order, the colours tuples equal to the original ones, the floats the
    same floats, every other field the same value. *)
Theorem config_round_trip (config : dict) :
  config_document config ->
  _deserialize_config (_serialize_config config) = config.
Proof.
  intros [Hnd Hok]. apply distinct_keys_NoDup in Hnd.
  rewrite (serialize_config_items config Hnd).
  rewrite deserialize_config_items by (now rewrite map_map; cbn [fst]).
  rewrite map_map. cbn [fst snd].
  induction config as [|item config IH]; cbn [map]; [reflexivity|].
  cbn [forallb] in Hok. apply andb_true_iff in Hok as [Hitem Hok].
  cbn [map] in Hnd. apply NoDup_cons_iff in Hnd as [_ Hnd].
  rewrite (field_round_trip item Hitem), (IH Hnd Hok).
  now destruct item.
Qed.

Lemma config_round_trip_witness :
  _deserialize_config (_serialize_config sample_document) = sample_document.
Proof.
  apply (config_round_trip sample_document). split; reflexivity.
Defined.

Example serialize_sample_colours :
  nth_error (_serialize_config sample_document) 7
  = Some (lit "foreground_color", VList [VInt 0; VInt 0; VInt 0]).
Proof. reflexivity. Qed.
